(** * slmgr: a model of the MAME software list manager

    The development embeds [slmgr.py] function by function.  Python
    strings are Rocq strings read as sequences of code points below 256;
    Python integers are [Z].  The operating system (PATH lookup,
    subprocesses, the file system) is a record of oracles that answer from
    the history of the run, and every function with an effect lives in a
    small monad that threads this history and stops at [sys.exit] or at an
    uncaught exception.

    Library calls are modelled by what they do on POSIX with CPython up
    to 3.13: [pathlib] splits a path at slashes and takes the suffix from
    the last dot that is neither first nor last in the name, [re.sub]
    with [\W+] under [re.ASCII] rewrites maximal runs, [str.lower] and
    [str.strip] act on code points.  File-system calls ([makedirs],
    [copy2], [stat]) are taken to succeed: click has checked that the
    files exist before [importp] runs. *)

From Stdlib Require Import ZArith List Bool Ascii String DecimalString.
From Stdlib Require Import Sorted Permutation Lia.
From Stdlib Require DecimalPos DecimalZ.
Import ListNotations.

Open Scope string_scope.
Open Scope Z_scope.

(** ** Python string primitives *)

Module PyStr.

Definition dq : ascii := "034"%char.
Definition tab : ascii := "009"%char.
Definition nl : ascii := "010"%char.
Definition underscore : ascii := "_"%char.

Definition str (c : ascii) : string := String c EmptyString.

Definition code (c : ascii) : Z := Z.of_N (N_of_ascii c).

Definition between (lo hi : Z) (c : ascii) : bool :=
  (lo <=? code c) && (code c <=? hi).

(** [str.lower] on one code point below 256: the ASCII capitals and the
    Latin-1 capitals (all of 192..222 but the multiplication sign). *)
Definition lower_char (c : ascii) : ascii :=
  if between 65 90 c || (between 192 222 c && negb (code c =? 215))
  then ascii_of_N (Z.to_N (code c + 32))
  else c.

Fixpoint lower (s : string) : string :=
  match s with
  | EmptyString => EmptyString
  | String c r => String (lower_char c) (lower r)
  end.

(** [\w] under [re.ASCII]: letters, digits and the underscore. *)
Definition is_word (c : ascii) : bool :=
  between 97 122 c || between 65 90 c || between 48 57 c || (code c =? 95).

(** [str.isspace] on one code point below 256. *)
Definition isspace (c : ascii) : bool :=
  between 9 13 c || between 28 32 c || (code c =? 133) || (code c =? 160).

Definition len (s : string) : Z := Z.of_nat (String.length s).

(** [c in s] for a one-character [c]. *)
Fixpoint contains (c : ascii) (s : string) : bool :=
  match s with
  | EmptyString => false
  | String a r => Ascii.eqb a c || contains c r
  end.

(** [s.rfind(c)] counted from position [i] of the whole string. *)
Fixpoint rfind_from (c : ascii) (s : string) (i : Z) : Z :=
  match s with
  | EmptyString => -1
  | String a r =>
      let j := rfind_from c r (i + 1) in
      if 0 <=? j then j else if Ascii.eqb a c then i else -1
  end.

Definition rfind (c : ascii) (s : string) : Z := rfind_from c s 0.

(** [s[:i]] and [s[i:]] for [0 <= i]. *)
Definition take (i : Z) (s : string) : string :=
  substring 0 (Z.to_nat i) s.

Definition drop (i : Z) (s : string) : string :=
  substring (Z.to_nat i) (String.length s - Z.to_nat i) s.

(** [s.split(sep)] for a one-character separator: never empty. *)
Fixpoint split (sep : ascii) (s : string) : list string :=
  match s with
  | EmptyString => [EmptyString]
  | String a r =>
      if Ascii.eqb a sep then EmptyString :: split sep r
      else match split sep r with
           | [] => [str a]
           | w :: ws => String a w :: ws
           end
  end.

Fixpoint lstrip (s : string) : string :=
  match s with
  | EmptyString => EmptyString
  | String a r => if isspace a then lstrip r else s
  end.

Fixpoint rstrip (s : string) : string :=
  match s with
  | EmptyString => EmptyString
  | String a r =>
      match rstrip r with
      | EmptyString => if isspace a then EmptyString else str a
      | r' => String a r'
      end
  end.

Definition strip (s : string) : string := rstrip (lstrip s).

Fixpoint last_char (s : string) : option ascii :=
  match s with
  | EmptyString => None
  | String a EmptyString => Some a
  | String _ r => last_char r
  end.

(** [s.endswith(c)] for a one-character [c]. *)
Definition endswith (s : string) (c : ascii) : bool :=
  match last_char s with
  | Some a => Ascii.eqb a c
  | None => false
  end.

(** [s[0:-1]]. *)
Fixpoint drop_last (s : string) : string :=
  match s with
  | EmptyString => EmptyString
  | String _ EmptyString => EmptyString
  | String a r => String a (drop_last r)
  end.

(** [re.sub(r"\W+", "_", s, flags=re.ASCII)]: the scan keeps every word
    character and writes one underscore when it enters a run of other
    characters; [in_run] says that the previous character was in a run. *)
Fixpoint sub_nonword_from (in_run : bool) (s : string) : string :=
  match s with
  | EmptyString => EmptyString
  | String a r =>
      if is_word a then String a (sub_nonword_from false r)
      else if in_run then sub_nonword_from true r
      else String underscore (sub_nonword_from true r)
  end.

Definition sub_nonword (s : string) : string := sub_nonword_from false s.

(** [f"{n}"] for an integer. *)
Definition format_int (n : Z) : string :=
  NilZero.string_of_int (Z.to_int n).

End PyStr.

(** ** pathlib and os.path (POSIX flavour) *)

Module PyPath.
Import PyStr.

Definition is_component (s : string) : bool :=
  negb (String.eqb s "") && negb (String.eqb s ".").

(** [PurePosixPath(p).name]: the last component that is neither empty
    nor a single dot. *)
Definition name (p : string) : string :=
  List.last (filter is_component (split "/" p)) "".

Definition has_suffix (n : string) : bool :=
  let i := rfind "." n in (0 <? i) && (i <? len n - 1).

Definition suffix (p : string) : string :=
  let n := name p in
  if has_suffix n then drop (rfind "." n) n else "".

Definition stem (p : string) : string :=
  let n := name p in
  if has_suffix n then take (rfind "." n) n else n.

(** [os.path.join(a, b)]. *)
Definition join (a b : string) : string :=
  if String.prefix "/" b then b
  else if String.eqb a "" || endswith a "/" then a ++ b
  else a ++ "/" ++ b.

End PyPath.

(** ** getOutputName *)

Definition getOutputName (filename : string) : string :=
  let base_name := PyStr.lower (PyPath.stem filename) in
  let output_name := PyStr.sub_nonword base_name in
  if PyStr.endswith output_name PyStr.underscore
  then PyStr.drop_last output_name
  else output_name.

(** ** The operating system and the effect monad *)

(** What a run leaves behind, oldest event first.  [Copy2 src dst] is
    [shutil.copy2(src, dst)]; with a directory for [dst] the copy keeps the
    base name of [src].  [Run] records an invocation with its exit status
    and its merged output.  [Echo true] is [click.echo(..., err=True)],
    [Echo false] writes to standard output. *)
Inductive Event : Type :=
| Makedirs (path : string)
| Copy2 (src dst : string)
| Run (argv : list string) (returncode : Z) (output : string)
| Echo (err : bool) (msg : string).

Definition Trace : Type := list Event.

Record CompletedProcess : Type := {
  returncode : Z;
  stdout : string
}.

(** The oracles answer from the history so far: a tool may well read a
    file that an earlier step wrote. *)
Record OS : Type := {
  which : Trace -> string -> bool;
  subprocess_run : Trace -> list string -> CompletedProcess;
  path_exists : Trace -> string -> bool;
  st_size : Trace -> string -> Z;
  glob : Trace -> string -> list string
}.

Inductive PyExn : Type := UnboundLocalError | ValueError.

Inductive Outcome (A : Type) : Type :=
| Return (a : A)
| SysExit (code : Z)
| Raise (e : PyExn).

Arguments Return {A} a.
Arguments SysExit {A} code.
Arguments Raise {A} e.

Definition M (A : Type) : Type := Trace -> Outcome A * Trace.

Definition ret {A} (a : A) : M A := fun t => (Return a, t).

Definition bind {A B} (m : M A) (k : A -> M B) : M B :=
  fun t =>
    match m t with
    | (Return a, t') => k a t'
    | (SysExit c, t') => (SysExit c, t')
    | (Raise e, t') => (Raise e, t')
    end.

Definition emit (e : Event) : M unit := fun t => (Return tt, (t ++ [e])%list).
Definition ask {A} (f : Trace -> A) : M A := fun t => (Return (f t), t).
Definition sys_exit {A} (c : Z) : M A := fun t => (SysExit c, t).
Definition lift {A} (o : Outcome A) : M A := fun t => (o, t).

Declare Scope py_scope.
Delimit Scope py_scope with py.
Notation "x <- m ;; k" := (bind m (fun x => k))
  (at level 100, m at next level, right associativity) : py_scope.
Notation "m ;;; k" := (bind m (fun _ => k))
  (at level 100, right associativity) : py_scope.
Notation "' pat <- m ;; k" := (bind m (fun x => match x with pat => k end))
  (at level 100, pat pattern, m at next level, right associativity) : py_scope.
Open Scope py_scope.

(** Exit status of the process for an outcome of the command. *)
Definition exit_code {A} (o : Outcome A) : Z :=
  match o with
  | Return _ => 0
  | SysExit c => c
  | Raise _ => 1
  end.

(** [sorted] on strings: insertion by code-point order. *)
Fixpoint insert_sorted (x : string) (l : list string) : list string :=
  match l with
  | [] => [x]
  | y :: r => if String.leb x y then x :: l else y :: insert_sorted x r
  end.

Definition sorted (l : list string) : list string :=
  fold_right insert_sorted [] l.

(** The loop of [getSha1] over the lines of [chdman info]. *)
Fixpoint scan_sha1 (lines : list string) : Outcome string :=
  match lines with
  | [] => Raise UnboundLocalError
  | line :: rest =>
      if negb (PyStr.contains ":" line) then scan_sha1 rest
      else match PyStr.split ":" line with
           | [key; value] =>
               if String.eqb key "SHA1" then Return (PyStr.strip value)
               else scan_sha1 rest
           | _ => Raise ValueError
           end
  end.

Record Part : Type := {
  partname : string;
  interface : string;
  dataarea : string
}.

Module Xml.
Import PyStr.

Definition q : string := str dq.
Definition n : string := str nl.
Fixpoint tabs (k : nat) : string :=
  match k with
  | O => ""
  | S k' => String tab (tabs k')
  end.

Definition harddriv (output_name sha1 : string) : string :=
  tabs 3 ++ "<diskarea name=" ++ q ++ "harddriv" ++ q ++ ">" ++ n
  ++ tabs 4 ++ "<disk name=" ++ q ++ output_name ++ q
  ++ " sha1=" ++ q ++ sha1 ++ q
  ++ " writeable=" ++ q ++ "yes" ++ q ++ " />" ++ n
  ++ tabs 3 ++ "</diskarea>".

Definition cdrom (output_name sha1 : string) : string :=
  tabs 3 ++ "<diskarea name=" ++ q ++ "cdrom" ++ q ++ ">" ++ n
  ++ tabs 4 ++ "<disk name=" ++ q ++ output_name ++ q
  ++ " sha1=" ++ q ++ sha1 ++ q ++ " />" ++ n
  ++ tabs 3 ++ "</diskarea>".

Definition flop (output_name sha1 crc32 : string) (size : Z) : string :=
  tabs 3 ++ "<dataarea name=" ++ q ++ "flop" ++ q
  ++ " size=" ++ q ++ format_int size ++ q ++ ">" ++ n
  ++ tabs 4 ++ "<rom name=" ++ q ++ output_name ++ q
  ++ " size=" ++ q ++ format_int size ++ q
  ++ " crc=" ++ q ++ crc32 ++ q
  ++ " sha1=" ++ q ++ sha1 ++ q ++ "/>" ++ n
  ++ tabs 3 ++ "</dataarea>".

Definition partxml (p : Part) : string :=
  tabs 2 ++ "<part name=" ++ q ++ partname p ++ q
  ++ " interface=" ++ q ++ interface p ++ q ++ ">" ++ n
  ++ dataarea p ++ n
  ++ tabs 2 ++ "</part>".

Definition software_open (name : string) : string :=
  tabs 1 ++ "<software name=" ++ q ++ name ++ q ++ ">" ++ n
  ++ tabs 2 ++ "<description>TODO</description>" ++ n
  ++ tabs 2 ++ "<year>TODO</year>" ++ n
  ++ tabs 2 ++ "<publisher>TODO</publisher>" ++ n.

Definition software_close : string := tabs 1 ++ "</software>".

End Xml.

(** ** The functions of slmgr.py *)

Section Slmgr.

Variable os : OS.

Definition requireCommands (commands : list string) : M unit :=
  missing <- ask (fun t => filter (fun cmd => negb (which os t cmd)) commands) ;;
  if (0 <? Z.of_nat (List.length missing))
  then emit (Echo true ("Required commands not found: "
                        ++ String.concat " " missing)) ;;;
       sys_exit 1
  else ret tt.

Definition runCommand (cmd : list string) : M CompletedProcess :=
  p <- ask (fun t => subprocess_run os t cmd) ;;
  emit (Run cmd (returncode p) (stdout p)) ;;;
  if negb (returncode p =? 0)
  then emit (Echo true (stdout p)) ;;; sys_exit 1
  else ret p.

Definition getSoftwareLists : M (list string) :=
  ps <- ask (fun t => glob os t (PyPath.join "hash" "*.xml")) ;;
  ret (sorted (map PyPath.stem ps)).

Definition getRomPath (sl name : string) : M string :=
  let rom_path := PyPath.join (PyPath.join "roms" sl) name in
  present <- ask (fun t => path_exists os t rom_path) ;;
  (if negb present then emit (Makedirs rom_path) else ret tt) ;;;
  ret rom_path.

Definition getCrc32 (filename : string) : M string :=
  requireCommands ["crc32"] ;;;
  p <- runCommand ["crc32"; filename] ;;
  ret (PyStr.strip (stdout p)).

Definition getSha1 (filename : string) : M string :=
  requireCommands ["chdman"; "sha1sum"] ;;;
  if String.eqb (PyStr.lower (PyPath.suffix filename)) ".chd"
  then p <- runCommand ["chdman"; "info"; "-i"; filename] ;;
       lift (scan_sha1 (PyStr.split PyStr.nl (stdout p)))
  else p <- runCommand ["sha1sum"; filename] ;;
       ret (PyStr.strip (hd "" (PyStr.split " " (stdout p)))).

Definition getSize (filename : string) : M Z :=
  ask (fun t => st_size os t filename).

Definition importcd (sl name filename : string) : M (string * string) :=
  requireCommands ["chdman"] ;;;
  rom_path <- getRomPath sl name ;;
  let output_name := getOutputName filename in
  let output := output_name ++ ".chd" in
  runCommand ["chdman"; "createcd"; "-i"; filename; "-o";
              PyPath.join rom_path output] ;;;
  sha1 <- getSha1 (PyPath.join rom_path output) ;;
  ret (output_name, sha1).

Definition importhdd (sl name filename : string) : M (string * string) :=
  requireCommands ["chdman"] ;;;
  rom_path <- getRomPath sl name ;;
  let output_name := getOutputName filename in
  let output := output_name ++ ".chd" in
  runCommand ["chdman"; "copy"; "-c"; "lzma,zlib,huff,flac"; "-i";
              filename; "-o"; PyPath.join rom_path output] ;;;
  sha1 <- getSha1 (PyPath.join rom_path output) ;;
  ret (output_name, sha1).

Definition importflop (sl name filename : string)
  : M (string * string * string * Z) :=
  rom_path <- getRomPath sl name ;;
  let base_name := PyPath.name filename in
  emit (Copy2 filename rom_path) ;;;
  crc32 <- getCrc32 filename ;;
  sha1 <- getSha1 filename ;;
  size <- getSize filename ;;
  ret (base_name, sha1, crc32, size).

Definition numbered (partname : string) (count : Z) : string :=
  if 0 <? count then partname ++ PyStr.format_int count else partname.

(** [importpart] up to its last template: the three locals [partname],
    [interface] and [dataarea] that the template formats. *)
Definition importpart_fields (sl name filename : string) (count : Z)
  : M Part :=
  let suffix := PyStr.lower (PyPath.suffix filename) in
  if String.eqb suffix ".chd" then
    '(output_name, sha1) <- importhdd sl name filename ;;
    let partname := numbered "hdd" count in
    let interface :=
      if String.eqb sl "ibm5150_hdd" then "st_hdd"
      else if String.eqb sl "ibm5170_hdd" then "ide_hdd"
      else "scsi_hdd" in
    ret {| partname := partname; interface := interface;
           dataarea := Xml.harddriv output_name sha1 |}
  else if String.eqb suffix ".iso" then
    '(output_name, sha1) <- importcd sl name filename ;;
    let partname := numbered "cdrom" count in
    ret {| partname := partname; interface := "cdrom";
           dataarea := Xml.cdrom output_name sha1 |}
  else
    '(output_name, sha1, crc32, size) <- importflop sl name filename ;;
    let partname := numbered "flop" count in
    let interface :=
      if (size =? 368640) || (size =? 1228800) then "floppy_5_25"
      else if (size =? 737280) || (size =? 1474560) then "floppy_3_5"
      else "TODO" in
    ret {| partname := partname; interface := interface;
           dataarea := Xml.flop output_name sha1 crc32 size |}.

Definition importpart (sl name filename : string) (count : Z) : M string :=
  p <- importpart_fields sl name filename count ;;
  ret (Xml.partxml p).

(** The first loop of [importparts]: one part per file, the counter
    going up by one each time. *)
Fixpoint import_loop (sl name : string) (filenames : list string)
  (count : Z) : M (list string) :=
  match filenames with
  | [] => ret []
  | filename :: rest =>
      part <- importpart sl name filename count ;;
      parts <- import_loop sl name rest (count + 1) ;;
      ret (part :: parts)
  end.

Definition software_xml (name : string) (parts : list string) : string :=
  fold_left (fun xml part => xml ++ part ++ Xml.n) parts
    (Xml.software_open name)
  ++ Xml.software_close.

Definition importparts (sl name : string) (filenames : list string)
  : M string :=
  let count := if Z.of_nat (List.length filenames) =? 1 then 0 else 1 in
  parts <- import_loop sl name filenames count ;;
  ret (software_xml name parts).

(** The command [list]; the name of the source is the type of lists
    here. *)
Definition list_cmd : M unit :=
  ls <- getSoftwareLists ;;
  fold_right (fun l k => emit (Echo false l) ;;; k) (ret tt) ls.

Definition importp (sl name : string) (filename : list string) : M unit :=
  if 16 <? PyStr.len name
  then emit (Echo true (name ++ " must be 16 chars or less")) ;;;
       sys_exit 1
  else xml <- importparts sl name filename ;;
       emit (Echo false xml).

End Slmgr.

(** ** Concrete worlds to run the model on *)

Module Demo.

Definition made (t : Trace) (p : string) : bool :=
  existsb (fun e => match e with
                    | Makedirs p' => String.eqb p p'
                    | _ => false
                    end) t.

Definition tool_output (info : string) (argv : list string) : string :=
  match argv with
  | "crc32" :: _ => "cbf43926" ++ Xml.n
  | "sha1sum" :: f :: _ =>
      "89e6c98d92887913cadf06b2adb97f26cde4849b  " ++ f ++ Xml.n
  | "chdman" :: "info" :: _ => info
  | _ => "Compression complete ... final ratio = 41.2%" ++ Xml.n
  end.

(** A world given by the commands on PATH, the exit status of each
    invocation, what [chdman info] prints, the size of every file and
    the content of [hash/]. *)
Definition world (present : string -> bool) (status : list string -> Z)
  (info : string) (size : Z) (lists : list string) : OS :=
  {| which := fun _ cmd => present cmd;
     subprocess_run := fun _ argv =>
       {| returncode := status argv; stdout := tool_output info argv |};
     path_exists := made;
     st_size := fun _ _ => size;
     glob := fun _ _ => lists |}.

Definition chd_info : string :=
  "Input file:   game.chd" ++ Xml.n
  ++ "File Version: 5" ++ Xml.n
  ++ "SHA1:         0123456789abcdef0123456789abcdef01234567" ++ Xml.n
  ++ "Metadata:     Tag='GDDD'  Index=0  Length=34 bytes" ++ Xml.n
  ++ "              CYLS:615,HEADS:4,SECS:17,BPS:512." ++ Xml.n.

Definition healthy (size : Z) : OS :=
  world (fun _ => true) (fun _ => 0) chd_info size
    ["hash/ibm5170.xml"; "hash/apple2.xml"; "hash/ibm5150_hdd.xml"].

Definition no_checksum_tools : OS :=
  world (fun cmd => String.eqb cmd "chdman") (fun _ => 0) chd_info
    1474560 [].

Definition failing (tool : string) : OS :=
  world (fun _ => true)
    (fun argv => if String.eqb (hd "" argv) tool then 2 else 0)
    chd_info 1474560 [].

End Demo.

(** ** Vocabulary of the statements *)

Section Vocabulary.
Import PyStr.

Fixpoint forall_chars (p : ascii -> bool) (s : string) : bool :=
  match s with
  | EmptyString => true
  | String a r => p a && forall_chars p r
  end.

Definition first_char (s : string) : option ascii :=
  match s with
  | EmptyString => None
  | String a _ => Some a
  end.

Definition nonword (c : ascii) : bool := negb (is_word c).

(** [s] is empty or ends in a word character. *)
Definition ends_word (s : string) : Prop :=
  match last_char s with
  | Some c => is_word c = true
  | None => True
  end.

(** [s] is empty or starts with a word character. *)
Definition starts_word (s : string) : Prop :=
  match first_char s with
  | Some c => is_word c = true
  | None => True
  end.

(** Two underscores in a row somewhere in [s]. *)
Fixpoint double_underscore (s : string) : bool :=
  match s with
  | EmptyString => false
  | String a r =>
      (Ascii.eqb a underscore
       && match r with
          | String b _ => Ascii.eqb b underscore
          | EmptyString => false
          end)
      || double_underscore r
  end.

Fixpoint count_char (c : ascii) (s : string) : nat :=
  match s with
  | EmptyString => O
  | String a r => ((if Ascii.eqb a c then 1 else 0) + count_char c r)%nat
  end.

(** A line the loop passes over: no colon, or one colon and a key other
    than SHA1. *)
Definition passed_over (line : string) : Prop :=
  contains ":" line = true ->
  exists key value, split ":" line = [key; value] /\ key <> "SHA1".

(** A name that [hash/*.xml] can match: not empty, no slash. *)
Definition list_name (n : string) : bool :=
  negb (String.eqb n "") && negb (contains "/" n).

Definition list_file (n : string) : string :=
  ("hash/" ++ n ++ ".xml")%string.

(** The kind of a part, read off the lowered suffix of the file name. *)
Definition part_kind (filename : string) : string :=
  let suffix := PyStr.lower (PyPath.suffix filename) in
  if String.eqb suffix ".chd" then "hdd"
  else if String.eqb suffix ".iso" then "cdrom"
  else "flop".

(** The directory of an entry, [roms/<sl>/<name>]. *)
Definition rom_dir (sl name : string) : string :=
  PyPath.join (PyPath.join "roms" sl) name.

(** The order of [sorted]: code point by code point. *)
Definition str_le (a b : string) : Prop := String.leb a b = true.

(** The hash that [sha1sum] prints in the worlds of [Demo]. *)
Definition demo_sha1 : string := "89e6c98d92887913cadf06b2adb97f26cde4849b".

(** A character of an output name: lower-case ASCII letter, digit or
    underscore. *)
Definition out_char (c : ascii) : bool :=
  between 97 122 c || between 48 57 c || (code c =? 95).

Definition not_space (c : ascii) : bool := negb (isspace c).

Local Open Scope list_scope.

(** An event of a run that goes well: no message, no failed tool. *)
Definition silent (e : Event) : Prop :=
  match e with
  | Run _ rc _ => rc = 0
  | Echo _ _ => False
  | _ => True
  end.

Definition quiet (d : Trace) : Prop := Forall silent d.

(** The two ways a run is cut short: a tool failed and its output went
    to stderr, or the program refused to go on and said why. *)
Inductive aborted : Trace -> Prop :=
| tool_failed d argv rc out :
    quiet d -> rc <> 0 ->
    aborted (d ++ [Run argv rc out; Echo true out])
| refused d msg :
    quiet d -> aborted (d ++ [Echo true msg]).

Definition outcome_ok {A} (o : Outcome A) (d : Trace) : Prop :=
  match o with
  | SysExit c => c = 1 /\ aborted d
  | _ => quiet d
  end.

(** [m] only adds to the history, and what it adds is quiet unless it
    exits, in which case it exits with status 1 in one of the two ways
    above. *)
Definition disciplined {A} (m : M A) : Prop :=
  forall t, exists d,
    snd (m t) = t ++ d /\ outcome_ok (fst (m t)) d.

(** The [missing] list of [requireCommands]. *)
Definition missing_commands (os : OS) (t : Trace) (commands : list string)
  : list string :=
  filter (fun cmd => negb (which os t cmd)) commands.

(** The message of [requireCommands]. *)
Definition not_found (missing : list string) : Event :=
  Echo true ("Required commands not found: "
             ++ String.concat " " missing)%string.

(** [m] only adds to the history, and what it adds satisfies [P], which
    may look at the history it started from. *)
Definition keeps {A} (P : Trace -> Trace -> Prop) (m : M A) : Prop :=
  forall t, exists d, snd (m t) = t ++ d /\ P t d.

(** Every [makedirs] among the events [d] added to [t] is for the path
    [p], and [os.path.exists] had just said that [p] was not there. *)
Definition fresh_dirs (os : OS) (p : string) (t d : Trace) : Prop :=
  forall d1 d2 q,
    d = d1 ++ Makedirs q :: d2 ->
    q = p /\ path_exists os (t ++ d1) q = false.

(** The file system remembers the directories that were made. *)
Definition remembers_dirs (os : OS) : Prop :=
  forall t q, In (Makedirs q) t -> path_exists os t q = true.


End Vocabulary.

(** ** The model on examples *)

Example getOutputName_my_game :
  getOutputName "dir/My Game!.img" = "my_game".
Proof. reflexivity. Qed.

Example getOutputName_dots :
  getOutputName "Disk 1 (v1.2).IMG" = "disk_1_v1_2".
Proof. reflexivity. Qed.

Example suffix_upper : PyPath.suffix "a/b/Game.CHD" = ".CHD".
Proof. reflexivity. Qed.

Example format_int_examples :
  PyStr.format_int 0 = "0" /\ PyStr.format_int 1474560 = "1474560"
  /\ PyStr.format_int (-7) = "-7".
Proof. repeat split. Qed.

(** ** Facts about the string primitives *)

Module PyStrFacts.
Import PyStr.

Lemma append_nil_r (s : string) : s ++ "" = s.
Proof. induction s as [|a r IH]; simpl; [|rewrite IH]; reflexivity. Qed.

Lemma append_assoc (a b c : string) : (a ++ b) ++ c = a ++ b ++ c.
Proof. induction a as [|x r IH]; simpl; [|rewrite IH]; reflexivity. Qed.

Lemma length_append (a b : string) :
  String.length (a ++ b) = (String.length a + String.length b)%nat.
Proof. induction a as [|x r IH]; simpl; [|rewrite IH]; reflexivity. Qed.

Lemma sub_after_run (b : string) :
  starts_word b -> sub_nonword_from true b = sub_nonword_from false b.
Proof.
  destruct b as [|c r]; simpl; [reflexivity|].
  unfold starts_word; simpl. intros ->. reflexivity.
Qed.

Lemma sub_inside_run (n b : string) :
  forall_chars nonword n = true -> starts_word b ->
  sub_nonword_from true (n ++ b) = sub_nonword_from false b.
Proof.
  intros Hn Hb. induction n as [|c r IH]; simpl in *.
  - now apply sub_after_run.
  - apply andb_prop in Hn as [Hc Hr]. unfold nonword in Hc.
    apply negb_true_iff in Hc. rewrite Hc. now apply IH.
Qed.

Lemma sub_run (n b : string) :
  n <> "" -> forall_chars nonword n = true -> starts_word b ->
  sub_nonword (n ++ b) = String underscore (sub_nonword b).
Proof.
  intros Hne Hn Hb. destruct n as [|c r]; [congruence|].
  simpl in Hn. apply andb_prop in Hn as [Hc Hr].
  unfold nonword in Hc. apply negb_true_iff in Hc.
  unfold sub_nonword. simpl. rewrite Hc.
  now rewrite sub_inside_run.
Qed.

Lemma sub_word_prefix (a x : string) :
  a <> "" -> ends_word a ->
  forall f, sub_nonword_from f (a ++ x)
            = sub_nonword_from f a ++ sub_nonword_from false x.
Proof.
  induction a as [|c r IH]; [congruence|]. intros _ He f.
  destruct r as [|c' r'].
  - unfold ends_word in He. simpl in *. rewrite He. reflexivity.
  - assert (Hr : ends_word (String c' r')) by exact He.
    assert (Hne : String c' r' <> "") by discriminate.
    change (String c (String c' r') ++ x) with (String c (String c' r' ++ x)).
    cbn [sub_nonword_from].
    destruct (is_word c); [|destruct f]; cbn [append];
      rewrite (IH Hne Hr); reflexivity.
Qed.

(** Every maximal run of non-word characters becomes one underscore. *)
Lemma sub_nonword_run (a n b : string) :
  ends_word a -> n <> "" -> forall_chars nonword n = true ->
  starts_word b ->
  sub_nonword (a ++ n ++ b)
  = sub_nonword a ++ String underscore (sub_nonword b).
Proof.
  intros Ha Hne Hn Hb. destruct a as [|c r].
  - simpl. now apply sub_run.
  - unfold sub_nonword at 1 2.
    rewrite sub_word_prefix by (discriminate || assumption).
    fold (sub_nonword (n ++ b)). now rewrite sub_run.
Qed.

Lemma lower_char_underscore (c : ascii) :
  Ascii.eqb (lower_char c) underscore = Ascii.eqb c underscore.
Proof.
  destruct c as [[] [] [] [] [] [] [] []]; vm_compute; reflexivity.
Qed.

Lemma contains_lower_underscore (s : string) :
  contains underscore (lower s) = contains underscore s.
Proof.
  induction s as [|c r IH]; simpl; [reflexivity|].
  now rewrite lower_char_underscore, IH.
Qed.

Lemma sub_no_double (s : string) :
  contains underscore s = false ->
  forall f, double_underscore (sub_nonword_from f s) = false
            /\ (first_char (sub_nonword_from true s) <> Some underscore).
Proof.
  induction s as [|c r IH]; intros Hc f; simpl in *.
  - split; [reflexivity|discriminate].
  - apply orb_false_iff in Hc as [Hc Hr].
    destruct (IH Hr false) as [Hd0 Hf], (IH Hr true) as [Hd1 _].
    destruct (is_word c) eqn:Hw.
    + split.
      * simpl. rewrite Hc, Hd0. reflexivity.
      * simpl. intros E. injection E as ->.
        now rewrite Ascii.eqb_refl in Hc.
    + split; [|exact Hf].
      destruct f; [exact Hd1|].
      simpl. rewrite Hd1, orb_false_r.
      destruct (sub_nonword_from true r) as [|b r'] eqn:E;
        [reflexivity|].
      simpl in Hf. destruct (Ascii.eqb_spec b underscore) as [->|];
        [congruence|reflexivity].
Qed.

Lemma drop_last_no_underscore (s : string) :
  double_underscore s = false -> endswith s underscore = true ->
  endswith (drop_last s) underscore = false.
Proof.
  destruct s as [|a r]; [discriminate|]. revert a.
  induction r as [|b r' IH]; intros a Hd He; [reflexivity|].
  destruct r' as [|c r''].
  - unfold endswith in *. simpl in *.
    rewrite He, andb_true_r, orb_false_r in Hd. exact Hd.
  - assert (Hd' : double_underscore (String b (String c r'')) = false).
    { cbn [double_underscore] in Hd.
      apply orb_false_iff in Hd as [_ Hd]. exact Hd. }
    specialize (IH b Hd' He).
    unfold endswith in *. cbn [drop_last last_char] in *.
    destruct (drop_last (String c r'')); exact IH.
Qed.

End PyStrFacts.

(** ** Facts about paths *)

Module PyPathFacts.
Import PyStr PyStrFacts PyPath.

Lemma contains_append (c : ascii) (a b : string) :
  contains c (a ++ b) = contains c a || contains c b.
Proof.
  induction a as [|x r IH]; simpl; [reflexivity|].
  now rewrite IH, orb_assoc.
Qed.

Lemma split_no_sep (sep : ascii) (s : string) :
  contains sep s = false -> split sep s = [s].
Proof.
  induction s as [|a r IH]; simpl; [reflexivity|]. intros H.
  apply orb_false_iff in H as [Ha Hr]. now rewrite Ha, (IH Hr).
Qed.

Lemma split_at_sep (sep : ascii) (a b : string) :
  contains sep a = false ->
  split sep (a ++ String sep b) = a :: split sep b.
Proof.
  induction a as [|x r IH]; simpl.
  - now rewrite Ascii.eqb_refl.
  - intros H. apply orb_false_iff in H as [Hx Hr].
    now rewrite Hx, (IH Hr).
Qed.

Lemma rfind_absent (c : ascii) (s : string) :
  contains c s = false -> forall i, rfind_from c s i = -1.
Proof.
  induction s as [|a r IH]; simpl; [reflexivity|]. intros H i.
  apply orb_false_iff in H as [Ha Hr]. now rewrite (IH Hr), Ha.
Qed.

Lemma rfind_last (c : ascii) (a b : string) :
  contains c b = false ->
  forall i, 0 <= i -> rfind_from c (a ++ String c b) i = i + len a.
Proof.
  intros Hb. induction a as [|x r IH]; intros i Hi.
  - simpl. rewrite (rfind_absent _ _ Hb), Ascii.eqb_refl.
    unfold len. simpl. lia.
  - change (String x r ++ String c b) with (String x (r ++ String c b)).
    cbn [rfind_from]. rewrite IH by lia.
    assert (H : 0 <= i + 1 + len r) by (unfold len; lia).
    apply Z.leb_le in H. rewrite H. unfold len. simpl String.length. lia.
Qed.

Lemma take_append (a b : string) : take (len a) (a ++ b) = a.
Proof.
  unfold take, len. rewrite Nat2Z.id.
  induction a as [|x r IH]; simpl.
  - destruct b; reflexivity.
  - now rewrite IH.
Qed.

Lemma name_in_directory (d f : string) :
  contains "/" d = false -> contains "/" f = false ->
  is_component f = true -> name (d ++ String "/" f) = f.
Proof.
  intros Hd Hf Hc. unfold name.
  rewrite (split_at_sep _ _ _ Hd), (split_no_sep _ _ Hf).
  simpl. rewrite Hc. destruct (is_component d); reflexivity.
Qed.

(** The stem of [hash/<n>.xml] is [<n>]. *)
Lemma stem_list_file (n : string) :
  list_name n = true -> stem (list_file n) = n.
Proof.
  unfold list_name. intros H. apply andb_prop in H as [Hne Hs].
  apply negb_true_iff in Hne, Hs. apply String.eqb_neq in Hne.
  assert (Hname : name (list_file n) = n ++ ".xml").
  { apply (name_in_directory "hash"); [reflexivity| |].
    - rewrite contains_append, Hs. reflexivity.
    - destruct n as [|a r]; [congruence|].
      unfold is_component. simpl.
      destruct (Ascii.eqb a "."), r; reflexivity. }
  assert (Hr : rfind "." (n ++ ".xml") = len n).
  { unfold rfind. rewrite (rfind_last "." n "xml"); [lia|reflexivity|lia]. }
  unfold stem. rewrite Hname. unfold has_suffix. rewrite Hr.
  assert (H1 : 0 < len n).
  { unfold len. destruct n; [congruence|simpl String.length; lia]. }
  assert (H2 : len n < len (n ++ ".xml") - 1).
  { unfold len. rewrite length_append. simpl String.length. lia. }
  apply Z.ltb_lt in H1, H2. rewrite H1, H2. simpl.
  apply take_append.
Qed.

End PyPathFacts.

(** ** Facts about [sorted] *)

Module SortedFacts.

Lemma ascii_compare_lt_trans (a b c : ascii) :
  Ascii.compare a b = Lt -> Ascii.compare b c = Lt ->
  Ascii.compare a c = Lt.
Proof.
  unfold Ascii.compare. rewrite !N.compare_lt_iff. lia.
Qed.

Lemma ascii_compare_eq (a b : ascii) : Ascii.compare a b = Eq -> a = b.
Proof.
  unfold Ascii.compare. intros H. apply N.compare_eq in H.
  rewrite <- (ascii_N_embedding a), <- (ascii_N_embedding b).
  now rewrite H.
Qed.

Lemma str_le_trans (a b c : string) : str_le a b -> str_le b c -> str_le a c.
Proof.
  unfold str_le, String.leb. revert b c.
  induction a as [|x a IH]; intros [|y b] [|z c]; simpl;
    try reflexivity; try discriminate.
  destruct (Ascii.compare x y) eqn:Exy; try discriminate.
  - apply ascii_compare_eq in Exy as ->.
    destruct (Ascii.compare y z) eqn:Eyz; try discriminate; auto.
    intros H1 H2. now apply (IH b c).
  - destruct (Ascii.compare y z) eqn:Eyz; try discriminate.
    + apply ascii_compare_eq in Eyz as <-. now rewrite Exy.
    + now rewrite (ascii_compare_lt_trans _ _ _ Exy Eyz).
Qed.

Lemma insert_perm (x : string) (l : list string) :
  Permutation (x :: l) (insert_sorted x l).
Proof.
  induction l as [|y r IH]; simpl; [reflexivity|].
  destruct (String.leb x y); [reflexivity|].
  rewrite perm_swap. now constructor.
Qed.

Lemma sorted_perm (l : list string) : Permutation l (sorted l).
Proof.
  induction l as [|x r IH]; simpl; [constructor|].
  rewrite <- insert_perm. now constructor.
Qed.

Lemma insert_ordered (x : string) (l : list string) :
  StronglySorted str_le l -> StronglySorted str_le (insert_sorted x l).
Proof.
  induction 1 as [|y r Hr IH Hy]; simpl.
  - repeat constructor.
  - destruct (String.leb x y) eqn:E.
    + constructor; [now constructor|]. constructor; [exact E|].
      eapply Forall_impl; [|exact Hy]. intros z Hz.
      now apply (str_le_trans x y z).
    + constructor; [exact IH|].
      assert (Hyx : str_le y x).
      { destruct (String.leb_total x y) as [H|H]; [congruence|exact H]. }
      eapply Permutation_Forall; [apply insert_perm|].
      now constructor.
Qed.

Lemma sorted_ordered (l : list string) : StronglySorted str_le (sorted l).
Proof.
  induction l as [|x r IH]; simpl; [constructor|].
  now apply insert_ordered.
Qed.

End SortedFacts.

(** ** Reasoning about runs *)

Module RunFacts.

Local Open Scope list_scope.

Lemma bind_return {A B} (m : M A) (k : A -> M B) t b t' :
  bind m k t = (Return b, t') ->
  exists a t1, m t = (Return a, t1) /\ k a t1 = (Return b, t').
Proof.
  unfold bind. destruct (m t) as [[a|c|e] t1]; intros H;
    try discriminate. eauto.
Qed.

Lemma quiet_aborted d1 d2 : quiet d1 -> aborted d2 -> aborted (d1 ++ d2).
Proof.
  intros H1 H2. destruct H2 as [d argv rc out Hd Hrc | d msg Hd];
    rewrite app_assoc; constructor; try assumption;
    apply Forall_app; now split.
Qed.

Lemma outcome_ok_app {A} (o : Outcome A) d1 d2 :
  quiet d1 -> outcome_ok o d2 -> outcome_ok o (d1 ++ d2).
Proof.
  intros H1. destruct o as [a|c|e]; simpl.
  - intros H2. apply Forall_app. now split.
  - intros [Hc H2]. split; [exact Hc|]. now apply quiet_aborted.
  - intros H2. apply Forall_app. now split.
Qed.

Lemma disciplined_ret {A} (a : A) : disciplined (ret a).
Proof.
  intros t. exists []. simpl. rewrite app_nil_r.
  split; [reflexivity|constructor].
Qed.

Lemma disciplined_ask {A} (f : Trace -> A) : disciplined (ask f).
Proof.
  intros t. exists []. simpl. rewrite app_nil_r.
  split; [reflexivity|constructor].
Qed.

Lemma disciplined_emit (e : Event) : silent e -> disciplined (emit e).
Proof.
  intros He t. exists [e]. simpl. split; [reflexivity|].
  constructor; [exact He|constructor].
Qed.

Lemma disciplined_bind {A B} (m : M A) (k : A -> M B) :
  disciplined m -> (forall a, disciplined (k a)) -> disciplined (bind m k).
Proof.
  intros Hm Hk t. unfold bind. destruct (Hm t) as [d1 [E1 O1]].
  destruct (m t) as [[a|c|e] t1]; simpl in *; subst t1.
  - destruct (Hk a (t ++ d1)) as [d2 [E2 O2]]. exists (d1 ++ d2).
    rewrite E2, app_assoc. split; [reflexivity|].
    now apply outcome_ok_app.
  - exists d1. now split.
  - exists d1. now split.
Qed.

Lemma disciplined_refuse {A} (msg : string) :
  disciplined (bind (emit (Echo true msg)) (fun _ => @sys_exit A 1)).
Proof.
  intros t. exists [Echo true msg]. simpl. split; [reflexivity|].
  split; [reflexivity|]. apply (refused [] msg). constructor.
Qed.

Lemma scan_sha1_no_exit (lines : list string) (c : Z) :
  scan_sha1 lines <> SysExit c.
Proof.
  induction lines as [|l r IH]; simpl; [discriminate|].
  destruct (negb (PyStr.contains ":" l)); [exact IH|].
  destruct (PyStr.split ":" l) as [|k [|v [|x y]]]; try discriminate.
  destruct (String.eqb k "SHA1"); [discriminate|exact IH].
Qed.

Lemma disciplined_scan (lines : list string) :
  disciplined (lift (scan_sha1 lines)).
Proof.
  intros t. exists []. unfold lift. simpl. rewrite app_nil_r.
  split; [reflexivity|].
  destruct (scan_sha1 lines) as [a|c|e] eqn:E; simpl;
    [constructor| |constructor].
  now apply scan_sha1_no_exit in E.
Qed.

Section Functions.

Variable os : OS.

Lemma requireCommands_disciplined cmds :
  disciplined (requireCommands os cmds).
Proof.
  unfold requireCommands. apply disciplined_bind.
  - apply disciplined_ask.
  - intros missing. destruct (0 <? _).
    + apply disciplined_refuse.
    + apply disciplined_ret.
Qed.

Lemma runCommand_disciplined cmd : disciplined (runCommand os cmd).
Proof.
  intros t. unfold runCommand, bind, ask, emit, sys_exit, ret.
  destruct (subprocess_run os t cmd) as [rc out]. simpl.
  destruct (Z.eqb_spec rc 0) as [->|Hrc]; simpl.
  - exists [Run cmd 0 out]. split; [reflexivity|].
    now repeat constructor.
  - exists [Run cmd rc out; Echo true out].
    rewrite <- app_assoc. split; [reflexivity|].
    split; [reflexivity|]. apply (tool_failed [] cmd rc out);
      [constructor|exact Hrc].
Qed.

Lemma getRomPath_disciplined sl name :
  disciplined (getRomPath os sl name).
Proof.
  unfold getRomPath. apply disciplined_bind; [apply disciplined_ask|].
  intros present. apply disciplined_bind; [|intros; apply disciplined_ret].
  destruct (negb present);
    [now apply disciplined_emit|apply disciplined_ret].
Qed.

Lemma getCrc32_disciplined f : disciplined (getCrc32 os f).
Proof.
  unfold getCrc32.
  apply disciplined_bind; [apply requireCommands_disciplined|intros _].
  apply disciplined_bind; [apply runCommand_disciplined|intros p].
  apply disciplined_ret.
Qed.

Lemma getSha1_disciplined f : disciplined (getSha1 os f).
Proof.
  unfold getSha1.
  apply disciplined_bind; [apply requireCommands_disciplined|intros _].
  destruct (String.eqb _ _);
    (apply disciplined_bind; [apply runCommand_disciplined|intros p]).
  - apply disciplined_scan.
  - apply disciplined_ret.
Qed.

Lemma getSize_disciplined f : disciplined (getSize os f).
Proof. apply disciplined_ask. Qed.

Lemma importcd_disciplined sl name f : disciplined (importcd os sl name f).
Proof.
  unfold importcd.
  apply disciplined_bind; [apply requireCommands_disciplined|intros _].
  apply disciplined_bind; [apply getRomPath_disciplined|intros rp].
  apply disciplined_bind; [apply runCommand_disciplined|intros _].
  apply disciplined_bind; [apply getSha1_disciplined|intros s].
  apply disciplined_ret.
Qed.

Lemma importhdd_disciplined sl name f :
  disciplined (importhdd os sl name f).
Proof.
  unfold importhdd.
  apply disciplined_bind; [apply requireCommands_disciplined|intros _].
  apply disciplined_bind; [apply getRomPath_disciplined|intros rp].
  apply disciplined_bind; [apply runCommand_disciplined|intros _].
  apply disciplined_bind; [apply getSha1_disciplined|intros s].
  apply disciplined_ret.
Qed.

Lemma importflop_disciplined sl name f :
  disciplined (importflop os sl name f).
Proof.
  unfold importflop.
  apply disciplined_bind; [apply getRomPath_disciplined|intros rp].
  apply disciplined_bind; [now apply disciplined_emit|intros _].
  apply disciplined_bind; [apply getCrc32_disciplined|intros c].
  apply disciplined_bind; [apply getSha1_disciplined|intros s].
  apply disciplined_bind; [apply getSize_disciplined|intros z].
  apply disciplined_ret.
Qed.

Lemma importpart_fields_disciplined sl name f count :
  disciplined (importpart_fields os sl name f count).
Proof.
  unfold importpart_fields.
  destruct (String.eqb _ ".chd"); [|destruct (String.eqb _ ".iso")].
  - apply disciplined_bind; [apply importhdd_disciplined|].
    intros [o s]. apply disciplined_ret.
  - apply disciplined_bind; [apply importcd_disciplined|].
    intros [o s]. apply disciplined_ret.
  - apply disciplined_bind; [apply importflop_disciplined|].
    intros [[[o s] c] z]. apply disciplined_ret.
Qed.

Lemma importpart_disciplined sl name f count :
  disciplined (importpart os sl name f count).
Proof.
  unfold importpart.
  apply disciplined_bind; [apply importpart_fields_disciplined|].
  intros p. apply disciplined_ret.
Qed.

Lemma import_loop_disciplined sl name fs :
  forall count, disciplined (import_loop os sl name fs count).
Proof.
  induction fs as [|f r IH]; intros count; simpl.
  - apply disciplined_ret.
  - apply disciplined_bind; [apply importpart_disciplined|intros p].
    apply disciplined_bind; [apply IH|intros ps].
    apply disciplined_ret.
Qed.

Lemma importparts_disciplined sl name fs :
  disciplined (importparts os sl name fs).
Proof.
  unfold importparts.
  apply disciplined_bind; [apply import_loop_disciplined|intros ps].
  apply disciplined_ret.
Qed.

End Functions.

End RunFacts.

(** ** The output-naming rule *)

Section OutputName.
Import PyStr PyStrFacts.

(** C4, as stated, fails: the underscore is a word character for [\W],
    so underscores of the name survive next to the one written for a
    run, and only one trailing underscore is cut. *)
Lemma getOutputName_keeps_underscores :
  getOutputName "a - _ - b.img" = "a___b"
  /\ getOutputName "Save!_.img" = "save_"
  /\ endswith (getOutputName "Save!_.img") underscore = true.
Proof. repeat split. Qed.

(** C4, amended: in the lowered stem every maximal run of characters
    other than ASCII letters, digits and the underscore becomes exactly
    one underscore, then one trailing underscore is cut; when the stem
    has no underscore of its own, the result does not end in one. *)
Theorem getOutputName_collapses_runs (filename a n b : string) :
  lower (PyPath.stem filename) = a ++ n ++ b ->
  ends_word a -> n <> "" -> forall_chars nonword n = true ->
  starts_word b ->
  (let output_name := sub_nonword a ++ String underscore (sub_nonword b) in
   getOutputName filename
   = if endswith output_name underscore then drop_last output_name
     else output_name)
  /\ (contains underscore (PyPath.stem filename) = false ->
      endswith (getOutputName filename) underscore = false).
Proof.
  intros Hs Ha Hne Hn Hb. split.
  - unfold getOutputName. cbv zeta. rewrite Hs.
    now rewrite sub_nonword_run.
  - intros Hu. unfold getOutputName. cbv zeta.
    rewrite <- contains_lower_underscore in Hu.
    destruct (sub_no_double _ Hu false) as [Hd _].
    fold (sub_nonword (lower (PyPath.stem filename))) in Hd.
    destruct (endswith (sub_nonword (lower (PyPath.stem filename)))
                underscore) eqn:E.
    + now apply drop_last_no_underscore.
    + exact E.
Qed.

Lemma getOutputName_collapses_runs_witness :
  getOutputName "dir/My  Game!.img" = "my_game"
  /\ endswith (getOutputName "dir/My  Game!.img") underscore = false.
Proof.
  destruct (getOutputName_collapses_runs "dir/My  Game!.img"
              "my" "  " "game!") as [H1 H2];
    [reflexivity|reflexivity|discriminate|reflexivity|reflexivity|].
  split; [exact H1|apply H2; reflexivity].
Defined.

End OutputName.

(** ** The list command *)

Section ListCommand.
Import PyPathFacts SortedFacts.
Local Open Scope list_scope.

Variable os : OS.

Lemma echo_all (ls : list string) (t : Trace) :
  fold_right (fun l k => emit (Echo false l) ;;; k) (ret tt) ls t
  = (Return tt, t ++ map (Echo false) ls).
Proof.
  revert t. induction ls as [|l r IH]; intros t; simpl.
  - unfold ret. now rewrite app_nil_r.
  - unfold bind, emit. rewrite IH, <- app_assoc. reflexivity.
Qed.

(** C9: [list] prints the stems of the files that [hash/*.xml] matches,
    in code-point order, and ends with status 0; the stem of
    [hash/<n>.xml] is [<n>]; when nothing matches (the directory is
    absent or empty) nothing is printed. *)
Theorem list_prints_sorted_stems (t : Trace) :
  exists ls,
    getSoftwareLists os t = (Return ls, t)
    /\ Permutation (map PyPath.stem (glob os t "hash/*.xml")) ls
    /\ StronglySorted str_le ls
    /\ list_cmd os t = (Return tt, t ++ map (Echo false) ls)
    /\ exit_code (fst (list_cmd os t)) = 0
    /\ (forall names,
           forallb list_name names = true ->
           glob os t "hash/*.xml" = map list_file names ->
           Permutation names ls)
    /\ (glob os t "hash/*.xml" = [] ->
        ls = [] /\ list_cmd os t = (Return tt, t)).
Proof.
  exists (sorted (map PyPath.stem (glob os t "hash/*.xml"))).
  assert (Hl : list_cmd os t
               = (Return tt,
                   t ++ map (Echo false)
                     (sorted (map PyPath.stem (glob os t "hash/*.xml"))))).
  { unfold list_cmd, getSoftwareLists, bind, ask, ret.
    change (PyPath.join "hash" "*.xml") with "hash/*.xml".
    apply echo_all. }
  refine (conj eq_refl (conj _ (conj _ (conj Hl (conj _ (conj _ _)))))).
  - apply sorted_perm.
  - apply sorted_ordered.
  - now rewrite Hl.
  - intros names Hv Hg. rewrite Hg, map_map.
    rewrite <- sorted_perm.
    rewrite (map_ext_in _ (fun n => n)), map_id; [reflexivity|].
    intros n Hin. apply stem_list_file.
    rewrite forallb_forall in Hv. now apply Hv.
  - intros Hg. rewrite Hl, Hg. simpl. now rewrite app_nil_r.
Qed.

End ListCommand.

Lemma list_prints_sorted_stems_witness :
  list_cmd (Demo.healthy 0) []
  = (Return tt,
      [Echo false "apple2"; Echo false "ibm5150_hdd"; Echo false "ibm5170"])
  /\ Permutation ["ibm5170"; "apple2"; "ibm5150_hdd"]
       ["apple2"; "ibm5150_hdd"; "ibm5170"]
  /\ list_cmd Demo.no_checksum_tools [] = (Return tt, []).
Proof.
  destruct (list_prints_sorted_stems (Demo.healthy 0) [])
    as (ls & Hg & _ & _ & Hl & _ & Hn & _).
  destruct (list_prints_sorted_stems Demo.no_checksum_tools [])
    as (ls' & _ & _ & _ & _ & _ & _ & He).
  assert (E : ls = ["apple2"; "ibm5150_hdd"; "ibm5170"]).
  { vm_compute in Hg. now injection Hg as <-. }
  rewrite E in Hl, Hn. split; [exact Hl|]. split.
  - apply (Hn ["ibm5170"; "apple2"; "ibm5150_hdd"]); reflexivity.
  - apply He. reflexivity.
Defined.

(** ** Single steps *)

Module StepFacts.
Local Open Scope list_scope.

Section Steps.

Variable os : OS.

Lemma requireCommands_run (commands : list string) (t : Trace) :
  requireCommands os commands t
  = match missing_commands os t commands with
    | [] => (Return tt, t)
    | missing => (SysExit 1, t ++ [not_found missing])
    end.
Proof.
  unfold requireCommands, bind, ask, missing_commands.
  destruct (filter _ commands) as [|c r]; reflexivity.
Qed.

Lemma requireCommands_present (commands : list string) (t : Trace) :
  forallb (which os t) commands = true ->
  requireCommands os commands t = (Return tt, t).
Proof.
  intros H. rewrite requireCommands_run.
  replace (missing_commands os t commands) with (@nil string);
    [reflexivity|].
  unfold missing_commands. induction commands as [|c r IH];
    [reflexivity|].
  simpl in *. apply andb_prop in H as [Hc Hr]. rewrite Hc. simpl.
  now apply IH.
Qed.

Lemma runCommand_run (cmd : list string) (t : Trace) :
  runCommand os cmd t
  = let p := subprocess_run os t cmd in
    if returncode p =? 0
    then (Return p, t ++ [Run cmd (returncode p) (stdout p)])
    else (SysExit 1,
           t ++ [Run cmd (returncode p) (stdout p);
                 Echo true (stdout p)]).
Proof.
  unfold runCommand, bind, ask, emit, sys_exit, ret. cbv zeta.
  destruct (returncode (subprocess_run os t cmd) =? 0); simpl;
    [reflexivity|].
  now rewrite <- app_assoc.
Qed.

Lemma getRomPath_run (sl name : string) (t : Trace) :
  let rom_path := PyPath.join (PyPath.join "roms" sl) name in
  getRomPath os sl name t
  = (Return rom_path,
      t ++ if path_exists os t rom_path then []
           else [Makedirs rom_path]).
Proof.
  unfold getRomPath, bind, ask, emit, ret. cbv zeta.
  destruct (path_exists os t _); simpl; [|reflexivity].
  now rewrite app_nil_r.
Qed.

End Steps.

End StepFacts.

(** ** The entry-name check of importp *)

Section NameCheck.
Local Open Scope list_scope.

Variable os : OS.

(** C7: a name of at most 16 characters, so one of exactly 16, passes
    the check: the import runs and its XML goes to standard output.  A
    longer name makes [importp] write one message to stderr and exit
    with status 1; nothing else happens, so no XML is printed. *)
Theorem importp_name_length (sl name : string) (files : list string)
  (t : Trace) :
  ((String.length name <= 16)%nat ->
   importp os sl name files t
   = bind (importparts os sl name files)
       (fun xml => emit (Echo false xml)) t
   /\ forall xml t',
       importparts os sl name files t = (Return xml, t') ->
       importp os sl name files t = (Return tt, t' ++ [Echo false xml]))
  /\ ((16 < String.length name)%nat ->
      importp os sl name files t
      = (SysExit 1,
          t ++ [Echo true (name ++ " must be 16 chars or less")%string])).
Proof.
  unfold importp, PyStr.len. split; intros H.
  - assert (E : (16 <? Z.of_nat (String.length name)) = false)
      by (apply Z.ltb_ge; lia).
    rewrite E. split; [reflexivity|].
    intros xml t' Hx. unfold bind. rewrite Hx. reflexivity.
  - assert (E : (16 <? Z.of_nat (String.length name)) = true)
      by (apply Z.ltb_lt; lia).
    rewrite E. reflexivity.
Qed.

End NameCheck.

Lemma importp_name_length_witness :
  (exists xml t',
      importp (Demo.healthy 1474560) "pc_xt" "sixteen_chars_ok" ["a.img"] []
      = (Return tt, t' ++ [Echo false xml])%list)
  /\ importp (Demo.healthy 1474560) "pc_xt" "seventeen_chars_x" ["a.img"] []
     = (SysExit 1, [Echo true "seventeen_chars_x must be 16 chars or less"]).
Proof.
  destruct (importp_name_length (Demo.healthy 1474560) "pc_xt"
              "sixteen_chars_ok" ["a.img"] []) as [H16 _].
  destruct (importp_name_length (Demo.healthy 1474560) "pc_xt"
              "seventeen_chars_x" ["a.img"] []) as [_ H17].
  split.
  - destruct H16 as [_ H]; [simpl; lia|].
    eexists. eexists. apply H. vm_compute. reflexivity.
  - apply H17. simpl. lia.
Defined.

(** ** The SHA1 of a hard-disk image *)

Section Sha1.
Import PyStr.
Local Open Scope list_scope.

Lemma split_length (c : ascii) (s : string) :
  List.length (split c s) = S (count_char c s).
Proof.
  induction s as [|a r IH]; simpl; [reflexivity|].
  destruct (Ascii.eqb a c); simpl.
  - now rewrite IH.
  - destruct (split c r); simpl in *; [discriminate|exact IH].
Qed.

Lemma contains_count (c : ascii) (s : string) :
  (1 <= count_char c s)%nat -> contains c s = true.
Proof.
  induction s as [|a r IH]; simpl; [lia|].
  destruct (Ascii.eqb a c); simpl; [reflexivity|exact IH].
Qed.

Lemma scan_passes (pre rest : list string) :
  Forall passed_over pre -> scan_sha1 (pre ++ rest) = scan_sha1 rest.
Proof.
  induction 1 as [|l r Hl _ IH]; simpl; [reflexivity|].
  destruct (contains ":" l) eqn:E; simpl; [|exact IH].
  destruct (Hl E) as [k [v [Hs Hk]]]. rewrite Hs.
  apply String.eqb_neq in Hk. now rewrite Hk.
Qed.

Lemma scan_no_sha1 (lines : list string) :
  Forall passed_over lines -> scan_sha1 lines = Raise UnboundLocalError.
Proof.
  intros H. rewrite <- (app_nil_r lines). now rewrite scan_passes.
Qed.

Lemma scan_two_colons (line : string) (post : list string) :
  (2 <= count_char ":" line)%nat ->
  scan_sha1 (line :: post) = Raise ValueError.
Proof.
  intros H. simpl. rewrite contains_count by lia. simpl.
  pose proof (split_length ":" line) as L.
  destruct (split ":" line) as [|k [|v [|x y]]]; simpl in L;
    try reflexivity; lia.
Qed.

Lemma scan_found (value : string) (post : list string) (line : string) :
  split ":" line = ["SHA1"; value] ->
  scan_sha1 (line :: post) = Return (strip value).
Proof.
  intros H. simpl. pose proof (split_length ":" line) as L.
  rewrite H in L. simpl in L. rewrite contains_count by lia.
  simpl. now rewrite H.
Qed.

Variable os : OS.

(** C10: for a [.chd] file whose [chdman info] run succeeds, [getSha1]
    is the scan of the output lines.  It returns the value of the first
    [SHA1] line when every earlier line has at most one colon; it ends
    in an uncaught [UnboundLocalError] when no line has the key [SHA1],
    and in an uncaught [ValueError] at a line with two colons or more
    that comes before any [SHA1] line.  In both cases nothing is
    written to stderr and the process does not leave through
    [sys.exit]. *)
Theorem getSha1_chd_partial (filename out : string) (t : Trace) :
  lower (PyPath.suffix filename) = ".chd" ->
  which os t "chdman" = true -> which os t "sha1sum" = true ->
  subprocess_run os t ["chdman"; "info"; "-i"; filename]
  = {| returncode := 0; stdout := out |} ->
  let t' := t ++ [Run ["chdman"; "info"; "-i"; filename] 0 out] in
  getSha1 os filename t = (scan_sha1 (split nl out), t')
  /\ (Forall passed_over (split nl out) ->
      getSha1 os filename t = (Raise UnboundLocalError, t'))
  /\ (forall pre line post,
         split nl out = pre ++ line :: post ->
         Forall passed_over pre ->
         (2 <= count_char ":" line)%nat ->
         getSha1 os filename t = (Raise ValueError, t'))
  /\ (forall pre line post value,
         split nl out = pre ++ line :: post ->
         Forall passed_over pre ->
         split ":" line = ["SHA1"; value] ->
         getSha1 os filename t = (Return (strip value), t')).
Proof.
  intros Hsuf Hc Hs Hrun t'.
  assert (E : getSha1 os filename t = (scan_sha1 (split nl out), t')).
  { unfold getSha1, bind.
    rewrite StepFacts.requireCommands_present
      by (simpl; now rewrite Hc, Hs).
    rewrite Hsuf, String.eqb_refl. cbv beta iota.
    rewrite StepFacts.runCommand_run, Hrun. reflexivity. }
  split; [exact E|]. split; [|split].
  - intros H. now rewrite E, scan_no_sha1.
  - intros pre line post Hl Hp H2.
    now rewrite E, Hl, scan_passes, scan_two_colons.
  - intros pre line post value Hl Hp Hv.
    now rewrite E, Hl, scan_passes, (scan_found value).
Qed.

End Sha1.


Lemma getSha1_chd_partial_witness :
  getSha1 (Demo.world (fun _ => true) (fun _ => 0) "no hash here" 0 [])
    "disk.chd" []
  = (Raise UnboundLocalError,
      [Run ["chdman"; "info"; "-i"; "disk.chd"] 0 "no hash here"])
  /\ getSha1 (Demo.world (fun _ => true) (fun _ => 0) "Ratio: 1:2" 0 [])
       "disk.chd" []
     = (Raise ValueError,
         [Run ["chdman"; "info"; "-i"; "disk.chd"] 0 "Ratio: 1:2"])
  /\ getSha1 (Demo.world (fun _ => true) (fun _ => 0) "SHA1: 0f3c " 0 [])
       "disk.chd" []
     = (Return "0f3c",
         [Run ["chdman"; "info"; "-i"; "disk.chd"] 0 "SHA1: 0f3c "]).
Proof.
  split; [|split].
  - apply (getSha1_chd_partial
             (Demo.world (fun _ => true) (fun _ => 0) "no hash here" 0 [])
             "disk.chd" "no hash here" []); try reflexivity.
    repeat constructor. intros H. discriminate H.
  - apply (getSha1_chd_partial
             (Demo.world (fun _ => true) (fun _ => 0) "Ratio: 1:2" 0 [])
             "disk.chd" "Ratio: 1:2" [] eq_refl eq_refl eq_refl eq_refl)
      with (pre := @nil string) (line := "Ratio: 1:2") (post := @nil string).
    + reflexivity.
    + constructor.
    + simpl. lia.
  - apply (getSha1_chd_partial
             (Demo.world (fun _ => true) (fun _ => 0) "SHA1: 0f3c " 0 [])
             "disk.chd" "SHA1: 0f3c " [] eq_refl eq_refl eq_refl eq_refl)
      with (pre := @nil string) (line := "SHA1: 0f3c ")
           (post := @nil string) (value := " 0f3c ").
    + reflexivity.
    + constructor.
    + reflexivity.
Defined.

(** ** A failing tool aborts the import *)

Section ToolFailure.
Import RunFacts.
Local Open Scope list_scope.

Variable os : OS.

Lemma quiet_no_failure (d : Trace) argv rc out :
  quiet d -> In (Run argv rc out) d -> rc = 0.
Proof.
  intros Hq Hin. unfold quiet in Hq. rewrite Forall_forall in Hq.
  exact (Hq _ Hin).
Qed.

Lemma quiet_no_echo (d : Trace) err msg : quiet d -> ~ In (Echo err msg) d.
Proof.
  intros Hq Hin. unfold quiet in Hq. rewrite Forall_forall in Hq.
  exact (Hq _ Hin).
Qed.

(** C8: take any run of [importp] from the empty history.  If some tool
    invocation of that run ended with a status other than 0, then the run
    left through [sys.exit(1)], that invocation was its last, the tool's
    captured output was written to stderr right after it, and nothing was
    ever written to standard output: no XML, not even for the files
    imported before the failure. *)
Theorem tool_failure_aborts_import (sl name : string) (files : list string)
  (o : Outcome unit) (t : Trace) (argv : list string) (rc : Z)
  (out : string) :
  importp os sl name files [] = (o, t) ->
  In (Run argv rc out) t -> rc <> 0 ->
  o = SysExit 1
  /\ exit_code o <> 0
  /\ (exists d, quiet d /\ t = d ++ [Run argv rc out; Echo true out])
  /\ (forall msg, ~ In (Echo false msg) t).
Proof.
  unfold importp. destruct (16 <? PyStr.len name).
  - unfold bind, emit, sys_exit. simpl. intros E Hin Hrc.
    injection E as <- <-. destruct Hin as [Hin|[]]. discriminate Hin.
  - intros E Hin Hrc. unfold bind in E.
    destruct (importparts_disciplined os sl name files []) as [d [Ed Od]].
    destruct (importparts os sl name files []) as [[xml|c|e] t1];
      simpl in Ed, Od; subst t1.
    + unfold emit in E. injection E as <- <-. simpl in Hin.
      apply in_app_or in Hin as [Hin|[Hin|[]]]; [|discriminate Hin].
      now apply (quiet_no_failure _ _ _ _ Od) in Hin.
    + injection E as <- <-. simpl in Hin. destruct Od as [-> Ha].
      destruct Ha as [d0 argv' rc' out' Hq Hrc' | d0 msg Hq].
      * apply in_app_or in Hin as [Hin|[Hin|[Hin|[]]]].
        -- now apply (quiet_no_failure _ _ _ _ Hq) in Hin.
        -- injection Hin as -> -> ->.
           split; [reflexivity|]. split; [discriminate|].
           split; [now exists d0|].
           intros msg Hm. apply in_app_or in Hm as [Hm|[Hm|[Hm|[]]]];
             try discriminate Hm.
           now apply (quiet_no_echo _ _ _ Hq) in Hm.
        -- discriminate Hin.
      * apply in_app_or in Hin as [Hin|[Hin|[]]]; [|discriminate Hin].
        now apply (quiet_no_failure _ _ _ _ Hq) in Hin.
    + injection E as <- <-. simpl in Hin.
      now apply (quiet_no_failure _ _ _ _ Od) in Hin.
Qed.

End ToolFailure.

Lemma tool_failure_aborts_import_witness :
  importp (Demo.failing "sha1sum") "pc_xt" "mygame" ["a.img"; "b.img"] []
  = (SysExit 1,
      [Makedirs "roms/pc_xt/mygame"; Copy2 "a.img" "roms/pc_xt/mygame";
       Run ["crc32"; "a.img"] 0 (Demo.tool_output "" ["crc32"; "a.img"]);
       Run ["sha1sum"; "a.img"] 2
         (Demo.tool_output "" ["sha1sum"; "a.img"]);
       Echo true (Demo.tool_output "" ["sha1sum"; "a.img"])])
  /\ forall msg,
      ~ In (Echo false msg)
          (snd (importp (Demo.failing "sha1sum") "pc_xt" "mygame"
                  ["a.img"; "b.img"] [])).
Proof.
  split; [reflexivity|].
  apply (tool_failure_aborts_import (Demo.failing "sha1sum") "pc_xt"
           "mygame" ["a.img"; "b.img"]
           (fst (importp (Demo.failing "sha1sum") "pc_xt" "mygame"
                   ["a.img"; "b.img"] []))
           (snd (importp (Demo.failing "sha1sum") "pc_xt" "mygame"
                   ["a.img"; "b.img"] []))
           ["sha1sum"; "a.img"] 2
           (Demo.tool_output "" ["sha1sum"; "a.img"])).
  - reflexivity.
  - vm_compute. tauto.
  - discriminate.
Defined.

(** ** What a returning import has done *)

Section Returns.
Import RunFacts StepFacts.
Local Open Scope list_scope.

Variable os : OS.

Ltac bind_inv H :=
  let a := fresh "a" in
  let t1 := fresh "t" in
  let H1 := fresh "H" in
  apply bind_return in H as (a & t1 & H1 & H).

Lemma extends {A} (m : M A) (t t' : Trace) (o : Outcome A) :
  disciplined m -> m t = (o, t') -> exists d, t' = t ++ d.
Proof.
  intros Hm E. destruct (Hm t) as [d [Ed _]]. rewrite E in Ed.
  now exists d.
Qed.

Lemma importflop_return (sl name filename : string) (t t' : Trace)
  (base_name sha1 crc32 : string) (size : Z) :
  importflop os sl name filename t
  = (Return (base_name, sha1, crc32, size), t') ->
  base_name = PyPath.name filename
  /\ size = st_size os t' filename
  /\ In (Copy2 filename (rom_dir sl name)) t'.
Proof.
  unfold importflop. intros H.
  bind_inv H. rewrite getRomPath_run in H0. injection H0 as <- <-.
  bind_inv H. unfold emit in H0. injection H0 as _ <-.
  bind_inv H. apply (extends _ _ _ _ (getCrc32_disciplined os filename))
    in H0 as [d1 ->].
  bind_inv H. apply (extends _ _ _ _ (getSha1_disciplined os filename))
    in H0 as [d2 ->].
  bind_inv H. unfold getSize, ask in H0. injection H0 as <- <-.
  unfold ret in H. injection H as <- <- <- <- <-.
  split; [reflexivity|]. split; [reflexivity|].
  apply in_or_app. left. apply in_or_app. left.
  apply in_or_app. right. now left.
Qed.

Lemma importpart_fields_flop (sl name filename : string) (count : Z)
  (t t' : Trace) (p : Part) :
  part_kind filename = "flop" ->
  importpart_fields os sl name filename count t = (Return p, t') ->
  exists sha1 crc32,
    let size := st_size os t' filename in
    p = {| partname := numbered "flop" count;
           interface :=
             if (size =? 368640) || (size =? 1228800) then "floppy_5_25"
             else if (size =? 737280) || (size =? 1474560) then "floppy_3_5"
             else "TODO";
           dataarea := Xml.flop (PyPath.name filename) sha1 crc32 size |}
    /\ In (Copy2 filename (rom_dir sl name)) t'.
Proof.
  unfold part_kind, importpart_fields. cbv zeta.
  destruct (String.eqb _ ".chd"); [discriminate|].
  destruct (String.eqb _ ".iso"); [discriminate|].
  intros _ H. bind_inv H. destruct a as [[[b s] c] z].
  unfold ret in H. injection H as <- <-.
  apply importflop_return in H0 as (-> & -> & Hin).
  exists s, c. now split.
Qed.

Lemma importpart_fields_hdd (sl name filename : string) (count : Z)
  (t t' : Trace) (p : Part) :
  part_kind filename = "hdd" ->
  importpart_fields os sl name filename count t = (Return p, t') ->
  exists output_name sha1,
    p = {| partname := numbered "hdd" count;
           interface :=
             if String.eqb sl "ibm5150_hdd" then "st_hdd"
             else if String.eqb sl "ibm5170_hdd" then "ide_hdd"
             else "scsi_hdd";
           dataarea := Xml.harddriv output_name sha1 |}.
Proof.
  unfold part_kind, importpart_fields. cbv zeta.
  destruct (String.eqb _ ".chd").
  - intros _ H. bind_inv H. destruct a as [o s].
    unfold ret in H. injection H as <- <-. now exists o, s.
  - destruct (String.eqb _ ".iso"); discriminate.
Qed.

Lemma importpart_fields_partname (sl name filename : string) (count : Z)
  (t t' : Trace) (p : Part) :
  importpart_fields os sl name filename count t = (Return p, t') ->
  partname p = numbered (part_kind filename) count.
Proof.
  unfold part_kind, importpart_fields. cbv zeta.
  destruct (String.eqb _ ".chd"); [|destruct (String.eqb _ ".iso")];
    intros H; bind_inv H.
  - destruct a as [o s]. unfold ret in H. now injection H as <- <-.
  - destruct a as [o s]. unfold ret in H. now injection H as <- <-.
  - destruct a as [[[b s] c] z]. unfold ret in H. now injection H as <- <-.
Qed.

Lemma import_loop_return (sl name : string) (files : list string) :
  forall (count : Z) (t t' : Trace) (parts : list string),
    import_loop os sl name files count t = (Return parts, t') ->
    exists ps,
      parts = map Xml.partxml ps
      /\ List.length ps = List.length files
      /\ forall i f,
          nth_error files i = Some f ->
          exists p,
            nth_error ps i = Some p
            /\ partname p = numbered (part_kind f) (count + Z.of_nat i).
Proof.
  induction files as [|f r IH]; intros count t t' parts H; simpl in H.
  - unfold ret in H. injection H as <- <-. exists []. repeat split.
    intros [|i] g Hg; discriminate Hg.
  - bind_inv H. unfold importpart in H0. bind_inv H0.
    unfold ret in H0. injection H0 as <- <-.
    bind_inv H. apply IH in H0 as (ps & -> & Hlen & Hnth).
    unfold ret in H. injection H as <- <-.
    exists (a0 :: ps). split; [reflexivity|]. split; [simpl; lia|].
    intros [|i] g Hg; simpl in Hg.
    + injection Hg as <-. exists a0. split; [reflexivity|].
      rewrite Z.add_0_r. eapply importpart_fields_partname; eassumption.
    + destruct (Hnth i g Hg) as (p & Hp & Hn). exists p.
      split; [exact Hp|]. rewrite Hn. f_equal. lia.
Qed.

End Returns.

(** ** The parts of an import *)

Section Parts.
Import StepFacts.
Local Open Scope list_scope.

Variable os : OS.

Lemma part_kind_flop (filename : string) :
  PyStr.lower (PyPath.suffix filename) <> ".chd" ->
  PyStr.lower (PyPath.suffix filename) <> ".iso" ->
  part_kind filename = "flop".
Proof.
  intros H1 H2. unfold part_kind. cbv zeta.
  apply String.eqb_neq in H1, H2. now rewrite H1, H2.
Qed.

Lemma part_kind_hdd (filename : string) :
  PyStr.lower (PyPath.suffix filename) = ".chd" ->
  part_kind filename = "hdd".
Proof. intros H. unfold part_kind. now rewrite H. Qed.

(** C1, amended: in an import that returns, the XML holds one part per
    file, in the order of the files.  With exactly one file the part name
    is the bare kind; otherwise the part of the i-th file, the first one
    included, is the kind followed by i (counted from 1), whatever the
    kinds of the other files. *)
Theorem importparts_numbering (sl name : string) (files : list string)
  (t t' : Trace) (xml : string) :
  importparts os sl name files t = (Return xml, t') ->
  exists ps,
    xml = software_xml name (map Xml.partxml ps)
    /\ List.length ps = List.length files
    /\ forall i f,
        nth_error files i = Some f ->
        exists p,
          nth_error ps i = Some p
          /\ partname p
             = if (List.length files =? 1)%nat then part_kind f
               else (part_kind f ++ PyStr.format_int (Z.of_nat i + 1))%string.
Proof.
  unfold importparts. intros H.
  apply RunFacts.bind_return in H as (parts & t1 & Hloop & H).
  unfold ret in H. injection H as <- <-.
  apply import_loop_return in Hloop as (ps & -> & Hlen & Hnth).
  exists ps. split; [reflexivity|]. split; [exact Hlen|].
  intros i f Hf. destruct (Hnth i f Hf) as (p & Hp & Hn).
  exists p. split; [exact Hp|]. rewrite Hn.
  destruct (Nat.eqb_spec (List.length files) 1) as [E|E].
  - assert (i = 0)%nat as ->.
    { assert (i < List.length files)%nat; [|lia].
      apply nth_error_Some. now rewrite Hf. }
    rewrite E. reflexivity.
  - replace (Z.of_nat (List.length files) =? 1) with false
      by (symmetry; apply Z.eqb_neq; lia).
    unfold numbered.
    replace (0 <? 1 + Z.of_nat i) with true
      by (symmetry; apply Z.ltb_lt; lia).
    now rewrite Z.add_comm.
Qed.

(** C5: the interface of a raw floppy part is read off the size that
    [stat] reports for the file, and off nothing else. *)
Theorem floppy_interface_by_size (sl name filename : string) (count : Z)
  (t t' : Trace) (p : Part) :
  PyStr.lower (PyPath.suffix filename) <> ".chd" ->
  PyStr.lower (PyPath.suffix filename) <> ".iso" ->
  importpart_fields os sl name filename count t = (Return p, t') ->
  let size := st_size os t' filename in
  (size = 368640 \/ size = 1228800 -> interface p = "floppy_5_25")
  /\ (size = 737280 \/ size = 1474560 -> interface p = "floppy_3_5")
  /\ (size <> 368640 -> size <> 1228800 -> size <> 737280 ->
      size <> 1474560 -> interface p = "TODO").
Proof.
  intros H1 H2 H size.
  apply importpart_fields_flop in H as (s & c & -> & _);
    [|now apply part_kind_flop].
  fold size. cbn [interface].
  split; [|split].
  - intros [E|E]; rewrite E; reflexivity.
  - intros [E|E]; rewrite E; reflexivity.
  - intros N1 N2 N3 N4. apply Z.eqb_neq in N1, N2, N3, N4.
    now rewrite N1, N2, N3, N4.
Qed.

(** C6: the interface of a hard-disk part is read off the list name, and
    off nothing else. *)
Theorem hdd_interface_by_list (sl name filename : string) (count : Z)
  (t t' : Trace) (p : Part) :
  PyStr.lower (PyPath.suffix filename) = ".chd" ->
  importpart_fields os sl name filename count t = (Return p, t') ->
  (sl = "ibm5150_hdd" -> interface p = "st_hdd")
  /\ (sl = "ibm5170_hdd" -> interface p = "ide_hdd")
  /\ (sl <> "ibm5150_hdd" -> sl <> "ibm5170_hdd" ->
      interface p = "scsi_hdd").
Proof.
  intros H1 H.
  apply importpart_fields_hdd in H as (o & s & ->);
    [|now apply part_kind_hdd].
  cbn [interface]. split; [|split].
  - now intros ->.
  - now intros ->.
  - intros N1 N2. apply String.eqb_neq in N1, N2. now rewrite N1, N2.
Qed.

(** C2, amended: a raw floppy import that returns has copied the file
    into the directory of the entry, where [copy2] keeps its base name,
    and the [name] of the [rom] element is that base name as it stands,
    extension included; the output-naming rule plays no part. *)
Theorem floppy_rom_keeps_base_name (sl name filename : string) (count : Z)
  (t t' : Trace) (p : Part) :
  PyStr.lower (PyPath.suffix filename) <> ".chd" ->
  PyStr.lower (PyPath.suffix filename) <> ".iso" ->
  importpart_fields os sl name filename count t = (Return p, t') ->
  (exists sha1 crc32,
      dataarea p
      = Xml.flop (PyPath.name filename) sha1 crc32
          (st_size os t' filename))
  /\ In (Copy2 filename (rom_dir sl name)) t'.
Proof.
  intros H1 H2 H.
  apply importpart_fields_flop in H as (s & c & -> & Hin);
    [|now apply part_kind_flop].
  split; [|exact Hin]. now exists s, c.
Qed.

(** C3, amended: every check reports, in one message on stderr, all the
    commands of its own list that are missing and then exits with
    status 1.  The hard-disk and the CD import check [chdman] before they
    do anything; the raw floppy import has created the directory and
    copied the file when it makes its first check, which is for [crc32]
    alone. *)
Theorem missing_commands_reported (sl name filename : string) (t : Trace) :
  (forall commands,
      requireCommands os commands t
      = match missing_commands os t commands with
        | [] => (Return tt, t)
        | missing => (SysExit 1, t ++ [not_found missing])
        end)
  /\ (which os t "chdman" = false ->
      importhdd os sl name filename t
      = (SysExit 1, t ++ [not_found ["chdman"]])
      /\ importcd os sl name filename t
         = (SysExit 1, t ++ [not_found ["chdman"]]))
  /\ (let t1 :=
        t ++ (if path_exists os t (rom_dir sl name) then []
              else [Makedirs (rom_dir sl name)])
          ++ [Copy2 filename (rom_dir sl name)] in
      which os t1 "crc32" = false ->
      importflop os sl name filename t
      = (SysExit 1, t1 ++ [not_found ["crc32"]])).
Proof.
  split; [|split].
  - intros commands. apply requireCommands_run.
  - intros H. unfold importhdd, importcd, bind.
    rewrite requireCommands_run. unfold missing_commands. simpl.
    rewrite H. simpl. now split.
  - intros t1 H. unfold importflop, bind.
    pose proof (getRomPath_run os sl name t) as R. cbv zeta in R.
    fold (rom_dir sl name) in R. rewrite R. unfold emit, getCrc32, bind.
    rewrite <- app_assoc. fold t1.
    rewrite requireCommands_run. unfold missing_commands. simpl.
    rewrite H. reflexivity.
Qed.

End Parts.

(** ** The claims on concrete runs *)

(** C1, as stated, fails: with two files the first part is [flop1], not
    [flop]; the counter starts at 1 and the first file already gets it. *)
Lemma importparts_first_part_numbered :
  fst (importparts (Demo.healthy 1474560) "pc_xt" "mygame"
         ["a.img"; "b.img"] [])
  = Return
      (software_xml "mygame"
         [Xml.partxml
            {| partname := "flop1"; interface := "floppy_3_5";
               dataarea := Xml.flop "a.img" demo_sha1 "cbf43926" 1474560 |};
          Xml.partxml
            {| partname := "flop2"; interface := "floppy_3_5";
               dataarea := Xml.flop "b.img" demo_sha1 "cbf43926" 1474560 |}])
  /\ partname
       {| partname := "flop1"; interface := "floppy_3_5";
          dataarea := Xml.flop "a.img" demo_sha1 "cbf43926" 1474560 |}
     <> "flop".
Proof. split; [reflexivity|discriminate]. Qed.

Lemma importparts_numbering_witness :
  exists xml t',
    importparts (Demo.healthy 999) "ibm5170_hdd" "mygame"
      ["a.img"; "B.CHD"; "c.iso"] [] = (Return xml, t')
    /\ exists ps,
        xml = software_xml "mygame" (map Xml.partxml ps)
        /\ List.length ps = 3%nat
        /\ forall i f,
            nth_error ["a.img"; "B.CHD"; "c.iso"] i = Some f ->
            exists p,
              nth_error ps i = Some p
              /\ partname p
                 = (part_kind f ++ PyStr.format_int (Z.of_nat i + 1))%string.
Proof.
  eexists. eexists. split; [vm_compute; reflexivity|].
  eapply (importparts_numbering (Demo.healthy 999) "ibm5170_hdd" "mygame"
            ["a.img"; "B.CHD"; "c.iso"] []).
  vm_compute. reflexivity.
Defined.

Lemma floppy_interface_by_size_witness :
  (exists p t',
      importpart_fields (Demo.healthy 368640) "pc_xt" "mygame" "a.img" 0 []
      = (Return p, t') /\ interface p = "floppy_5_25")
  /\ (exists p t',
         importpart_fields (Demo.healthy 737280) "pc_xt" "mygame" "a.img"
           0 [] = (Return p, t') /\ interface p = "floppy_3_5")
  /\ (exists p t',
         importpart_fields (Demo.healthy 999999) "pc_xt" "mygame" "a.img"
           0 [] = (Return p, t') /\ interface p = "TODO").
Proof.
  split; [|split]; eexists; eexists; (split; [vm_compute; reflexivity|]).
  - eapply (floppy_interface_by_size (Demo.healthy 368640) "pc_xt" "mygame"
              "a.img" 0 []);
      [discriminate|discriminate|vm_compute; reflexivity|].
    left. reflexivity.
  - eapply (floppy_interface_by_size (Demo.healthy 737280) "pc_xt" "mygame"
              "a.img" 0 []);
      [discriminate|discriminate|vm_compute; reflexivity|].
    left. reflexivity.
  - eapply (floppy_interface_by_size (Demo.healthy 999999) "pc_xt" "mygame"
              "a.img" 0 []);
      [discriminate|discriminate|vm_compute; reflexivity| | | |];
      discriminate.
Defined.

Lemma hdd_interface_by_list_witness :
  (exists p t',
      importpart_fields (Demo.healthy 0) "ibm5150_hdd" "mygame" "a.chd" 0 []
      = (Return p, t') /\ interface p = "st_hdd")
  /\ (exists p t',
         importpart_fields (Demo.healthy 0) "ibm5170_hdd" "mygame" "a.chd"
           0 [] = (Return p, t') /\ interface p = "ide_hdd")
  /\ (exists p t',
         importpart_fields (Demo.healthy 0) "pc98_hdd" "mygame" "a.chd"
           0 [] = (Return p, t') /\ interface p = "scsi_hdd").
Proof.
  split; [|split]; eexists; eexists; (split; [vm_compute; reflexivity|]).
  - eapply (hdd_interface_by_list (Demo.healthy 0) "ibm5150_hdd" "mygame"
              "a.chd" 0 []);
      [reflexivity|vm_compute; reflexivity|reflexivity].
  - eapply (hdd_interface_by_list (Demo.healthy 0) "ibm5170_hdd" "mygame"
              "a.chd" 0 []);
      [reflexivity|vm_compute; reflexivity|reflexivity].
  - eapply (hdd_interface_by_list (Demo.healthy 0) "pc98_hdd" "mygame"
              "a.chd" 0 []);
      [reflexivity|vm_compute; reflexivity| |]; discriminate.
Defined.

(** C2, as stated, fails: the [rom] of [My Game!.img] is named
    [My Game!.img], while the output-naming rule gives [my_game]. *)
Lemma floppy_rom_name_not_normalised :
  fst (importpart_fields (Demo.healthy 1474560) "pc_xt" "mygame"
         "My Game!.img" 0 [])
  = Return {| partname := "flop"; interface := "floppy_3_5";
              dataarea :=
                Xml.flop "My Game!.img" demo_sha1 "cbf43926" 1474560 |}
  /\ In (Copy2 "My Game!.img" "roms/pc_xt/mygame")
       (snd (importpart_fields (Demo.healthy 1474560) "pc_xt" "mygame"
               "My Game!.img" 0 []))
  /\ getOutputName "My Game!.img" = "my_game"
  /\ "My Game!.img" <> getOutputName "My Game!.img".
Proof.
  split; [reflexivity|]. split; [vm_compute; tauto|].
  split; [reflexivity|discriminate].
Qed.

Lemma floppy_rom_keeps_base_name_witness :
  exists p t',
    importpart_fields (Demo.healthy 1474560) "pc_xt" "mygame"
      "dir/My Game!.img" 0 [] = (Return p, t')
    /\ (exists sha1 crc32,
           dataarea p = Xml.flop "My Game!.img" sha1 crc32 1474560)
    /\ In (Copy2 "dir/My Game!.img" "roms/pc_xt/mygame") t'.
Proof.
  eexists. eexists. split; [vm_compute; reflexivity|].
  eapply (floppy_rom_keeps_base_name (Demo.healthy 1474560) "pc_xt"
            "mygame" "dir/My Game!.img" 0 []);
    [discriminate|discriminate|vm_compute; reflexivity].
Defined.

(** C3, as stated, fails: with [crc32] and [sha1sum] both missing, the
    raw floppy import has made the directory and copied the file before
    anything is reported, and the one message names [crc32] only. *)
Lemma floppy_copied_before_check :
  importp Demo.no_checksum_tools "pc_xt" "mygame" ["My Game!.img"] []
  = (SysExit 1,
      [Makedirs "roms/pc_xt/mygame";
       Copy2 "My Game!.img" "roms/pc_xt/mygame";
       Echo true "Required commands not found: crc32"])
  /\ which Demo.no_checksum_tools [] "sha1sum" = false.
Proof. split; reflexivity. Qed.

Lemma missing_commands_reported_witness :
  importhdd (Demo.world (fun _ => false) (fun _ => 0) "" 0 []) "pc_xt"
    "mygame" "a.chd" []
  = (SysExit 1, [Echo true "Required commands not found: chdman"])
  /\ importflop Demo.no_checksum_tools "pc_xt" "mygame" "a.img" []
     = (SysExit 1,
         [Makedirs "roms/pc_xt/mygame"; Copy2 "a.img" "roms/pc_xt/mygame";
          Echo true "Required commands not found: crc32"]).
Proof.
  split.
  - apply (missing_commands_reported
             (Demo.world (fun _ => false) (fun _ => 0) "" 0 []) "pc_xt"
             "mygame" "a.chd" []). reflexivity.
  - apply (missing_commands_reported Demo.no_checksum_tools "pc_xt"
             "mygame" "a.img" []). reflexivity.
Defined.

(** ** More on output names *)

Section OutputAlphabet.
Import PyStr PyStrFacts PyPathFacts.

Lemma lower_word_out (c : ascii) :
  is_word (lower_char c) = true -> out_char (lower_char c) = true.
Proof.
  destruct c as [[] [] [] [] [] [] [] []]; vm_compute; auto.
Qed.

Lemma sub_lower_out (s : string) :
  forall f, forall_chars out_char (sub_nonword_from f (lower s)) = true.
Proof.
  induction s as [|c r IH]; intros f; simpl; [reflexivity|].
  destruct (is_word (lower_char c)) eqn:E.
  - simpl. now rewrite (lower_word_out _ E), IH.
  - destruct f; [apply IH|]. simpl. now rewrite IH.
Qed.

Lemma drop_last_forall (p : ascii -> bool) (s : string) :
  forall_chars p s = true -> forall_chars p (drop_last s) = true.
Proof.
  induction s as [|a r IH]; simpl; [reflexivity|]. intros H.
  apply andb_prop in H as [Ha Hr]. destruct r as [|b r']; [reflexivity|].
  specialize (IH Hr).
  change (drop_last (String a (String b r')))
    with (String a (drop_last (String b r'))).
  cbn [forall_chars]. rewrite Ha. exact IH.
Qed.

Lemma forall_chars_contains (p : ascii -> bool) (c : ascii) (s : string) :
  forall_chars p s = true -> p c = false -> contains c s = false.
Proof.
  intros Hs Hc. induction s as [|a r IH]; simpl in *; [reflexivity|].
  apply andb_prop in Hs as [Ha Hr]. rewrite (IH Hr), orb_false_r.
  destruct (Ascii.eqb_spec a c) as [->|]; [congruence|reflexivity].
Qed.

Lemma output_name_chars (filename : string) :
  forall_chars out_char (getOutputName filename) = true.
Proof.
  unfold getOutputName. cbv zeta.
  pose proof (sub_lower_out (PyPath.stem filename) false) as Hs.
  fold (sub_nonword (lower (PyPath.stem filename))) in Hs.
  destruct (endswith _ underscore); [now apply drop_last_forall|exact Hs].
Qed.

(** An output name is made of lower-case ASCII letters, digits and
    underscores only, whatever the file name was: no slash, no dot, no
    blank, no capital. *)
Theorem getOutputName_alphabet (filename : string) :
  forall_chars out_char (getOutputName filename) = true
  /\ forall c, out_char c = false ->
               contains c (getOutputName filename) = false.
Proof.
  pose proof (output_name_chars filename) as H.
  split; [exact H|]. intros c Hc. now apply (forall_chars_contains out_char).
Qed.

Lemma split_nonempty (sep : ascii) (s : string) : split sep s <> [].
Proof.
  destruct s as [|a r]; simpl; [discriminate|].
  destruct (Ascii.eqb a sep); [discriminate|].
  destruct (split sep r); discriminate.
Qed.

Lemma split_append (sep : ascii) (a b : string) :
  split sep (a ++ String sep b) = (split sep a ++ split sep b)%list.
Proof.
  induction a as [|x r IH]; simpl.
  - now rewrite Ascii.eqb_refl.
  - rewrite IH. destruct (Ascii.eqb x sep); [reflexivity|].
    pose proof (split_nonempty sep r) as Hne.
    destruct (split sep r); [congruence|reflexivity].
Qed.

Lemma name_after_slash (a b : string) :
  contains "/" b = false -> PyPath.is_component b = true ->
  PyPath.name (a ++ String "/" b) = b.
Proof.
  intros Hb Hc. unfold PyPath.name.
  rewrite split_append, filter_app, (split_no_sep _ _ Hb). simpl.
  rewrite Hc. apply last_last.
Qed.

Lemma name_plain (b : string) :
  contains "/" b = false -> PyPath.is_component b = true ->
  PyPath.name b = b.
Proof.
  intros Hb Hc. unfold PyPath.name. rewrite (split_no_sep _ _ Hb).
  simpl. now rewrite Hc.
Qed.

Lemma endswith_inv (s : string) (c : ascii) :
  endswith s c = true -> exists s', s = s' ++ String c "".
Proof.
  unfold endswith. induction s as [|a r IH]; simpl; [discriminate|].
  destruct r as [|b r'].
  - intros H. apply Ascii.eqb_eq in H as ->. now exists "".
  - intros H. destruct (IH H) as [s' E]. exists (String a s').
    simpl. now rewrite <- E.
Qed.

Lemma prefix_slash_contains (b : string) :
  contains "/" b = false -> String.prefix "/" b = false.
Proof.
  destruct b as [|x r]; [reflexivity|]. intros H. simpl in H.
  apply orb_false_iff in H as [Hx _].
  change (String.prefix "/" (String x r))
    with (if ascii_dec "/" x then String.prefix "" r else false).
  destruct (ascii_dec "/" x) as [<-|]; [discriminate Hx|reflexivity].
Qed.

(** The last component of a joined path is the name that was joined. *)
Lemma name_join (a b : string) :
  contains "/" b = false -> PyPath.is_component b = true ->
  PyPath.name (PyPath.join a b) = b.
Proof.
  intros Hb Hc. unfold PyPath.join.
  rewrite (prefix_slash_contains _ Hb).
  destruct (String.eqb_spec a "") as [->|Ha]; simpl.
  - now apply name_plain.
  - destruct (endswith a "/") eqn:E.
    + apply endswith_inv in E as [a' ->]. rewrite append_assoc. simpl.
      now apply name_after_slash.
    + now apply name_after_slash.
Qed.

Lemma drop_append (a b : string) : drop (len a) (a ++ b) = b.
Proof.
  unfold drop, len. rewrite Nat2Z.id, length_append.
  replace (String.length a + String.length b - String.length a)%nat
    with (String.length b) by lia.
  induction a as [|x r IH]; simpl; [|exact IH].
  induction b as [|y b' IHb]; simpl; [reflexivity|]. now rewrite IHb.
Qed.

(** The converted file [<output name>.chd] has the suffix [.chd] for
    [pathlib] unless the output name is empty: [.chd] alone is a name
    without a suffix. *)
Lemma converted_image_suffix (dir filename : string) :
  lower (PyPath.suffix (PyPath.join dir (getOutputName filename ++ ".chd")))
  = if String.eqb (getOutputName filename) "" then "" else ".chd".
Proof.
  assert (Hno : forall c, out_char c = false ->
                          contains c (getOutputName filename) = false).
  { intros c Hc. apply (forall_chars_contains out_char); [|exact Hc].
    apply output_name_chars. }
  set (o := getOutputName filename) in *.
  assert (Hname : PyPath.name (PyPath.join dir (o ++ ".chd")) = o ++ ".chd").
  { apply name_join.
    - rewrite contains_append, (Hno "/"%char eq_refl). reflexivity.
    - unfold PyPath.is_component. destruct o as [|a r]; [reflexivity|].
      simpl. destruct (Ascii.eqb a "."), r; reflexivity. }
  assert (Hr : rfind "." (o ++ ".chd") = len o).
  { unfold rfind. rewrite (rfind_last "." o "chd"); [lia|reflexivity|lia]. }
  unfold PyPath.suffix. rewrite Hname. unfold PyPath.has_suffix.
  rewrite Hr. destruct (String.eqb_spec o "") as [->|Hne].
  - reflexivity.
  - assert (H1 : 0 < len o).
    { unfold len. destruct o; [congruence|simpl String.length; lia]. }
    assert (H2 : len o < len (o ++ ".chd") - 1).
    { unfold len. rewrite length_append. simpl String.length. lia. }
    apply Z.ltb_lt in H1, H2. rewrite H1, H2. simpl.
    now rewrite drop_append.
Qed.

Variable os : OS.

(** The hash of a converted image is asked of [chdman info] only when
    the output name is not empty.  When it is empty (the stem of the
    input has no letter, digit or underscore) the converted file is
    called [.chd] and [getSha1] runs [sha1sum] on it instead. *)
Theorem converted_image_hash_tool (dir filename : string) (t : Trace) :
  which os t "chdman" = true -> which os t "sha1sum" = true ->
  let path := PyPath.join dir (getOutputName filename ++ ".chd") in
  getSha1 os path t
  = if String.eqb (getOutputName filename) ""
    then bind (runCommand os ["sha1sum"; path])
           (fun p => ret (strip (hd "" (split " " (stdout p))))) t
    else bind (runCommand os ["chdman"; "info"; "-i"; path])
           (fun p => lift (scan_sha1 (split nl (stdout p)))) t.
Proof.
  intros Hc Hs path. unfold getSha1, bind at 1.
  rewrite StepFacts.requireCommands_present by (simpl; now rewrite Hc, Hs).
  unfold path. rewrite converted_image_suffix.
  destruct (String.eqb (getOutputName filename) ""); reflexivity.
Qed.

End OutputAlphabet.

Lemma getOutputName_alphabet_witness :
  getOutputName "Dir.D/My Game (v1.2) [!].IMG" = "my_game_v1_2"
  /\ PyStr.contains "." (getOutputName "Dir.D/My Game (v1.2) [!].IMG")
     = false
  /\ PyStr.contains " " (getOutputName "Dir.D/My Game (v1.2) [!].IMG")
     = false.
Proof.
  destruct (getOutputName_alphabet "Dir.D/My Game (v1.2) [!].IMG")
    as [_ H].
  split; [reflexivity|]. split; apply H; reflexivity.
Defined.

Lemma converted_image_hash_tool_witness :
  getOutputName "(!).iso" = ""
  /\ getSha1 (Demo.healthy 0) "roms/psx/mygame/.chd" []
     = (Return demo_sha1,
         [Run ["sha1sum"; "roms/psx/mygame/.chd"] 0
            (Demo.tool_output "" ["sha1sum"; "roms/psx/mygame/.chd"])])
  /\ getSha1 (Demo.healthy 0) "roms/psx/mygame/disc_1.chd" []
     = (Return "0123456789abcdef0123456789abcdef01234567",
         [Run ["chdman"; "info"; "-i"; "roms/psx/mygame/disc_1.chd"] 0
            Demo.chd_info]).
Proof.
  split; [reflexivity|]. split.
  - etransitivity;
      [exact (converted_image_hash_tool (Demo.healthy 0) "roms/psx/mygame"
                "(!).iso" [] eq_refl eq_refl)|reflexivity].
  - etransitivity;
      [exact (converted_image_hash_tool (Demo.healthy 0) "roms/psx/mygame"
                "Disc 1.iso" [] eq_refl eq_refl)|reflexivity].
Defined.

(** ** Reading the output of the checksum tools *)

Section Checksums.
Import PyStr PyStrFacts PyPathFacts StepFacts.
Local Open Scope list_scope.

Lemma lstrip_spaces (w : string) :
  forall_chars isspace w = true -> lstrip w = "".
Proof.
  induction w as [|a r IH]; simpl; [reflexivity|]. intros H.
  apply andb_prop in H as [Ha Hr]. now rewrite Ha, IH.
Qed.

Lemma rstrip_spaces (w : string) :
  forall_chars isspace w = true -> rstrip w = "".
Proof.
  induction w as [|a r IH]; simpl; [reflexivity|]. intros H.
  apply andb_prop in H as [Ha Hr]. now rewrite (IH Hr), Ha.
Qed.

Lemma rstrip_field (h w : string) :
  forall_chars not_space h = true -> forall_chars isspace w = true ->
  rstrip (h ++ w) = h.
Proof.
  intros Hh Hw. induction h as [|a r IH]; simpl in *.
  - now apply rstrip_spaces.
  - apply andb_prop in Hh as [Ha Hr]. rewrite (IH Hr).
    unfold not_space in Ha. apply negb_true_iff in Ha.
    destruct r; [now rewrite Ha|reflexivity].
Qed.

(** [strip] gives back a field without blanks that is followed by blanks
    only. *)
Lemma strip_field (h w : string) :
  forall_chars not_space h = true -> forall_chars isspace w = true ->
  strip (h ++ w) = h.
Proof.
  intros Hh Hw. unfold strip. destruct h as [|a r].
  - simpl. now rewrite lstrip_spaces.
  - assert (E : lstrip (String a r ++ w) = (String a r ++ w)%string).
    { simpl in *. apply andb_prop in Hh as [Ha _]. unfold not_space in Ha.
      apply negb_true_iff in Ha. now rewrite Ha. }
    rewrite E. now apply rstrip_field.
Qed.

Variable os : OS.

(** [getSha1] on a file that is not a [.chd]: from a line of [sha1sum],
    a hash without blanks, a blank and anything after it, the hash comes
    back, whatever the file name looks like. *)
Theorem getSha1_reads_sha1sum (filename hash rest : string) (t : Trace) :
  lower (PyPath.suffix filename) <> ".chd" ->
  which os t "chdman" = true -> which os t "sha1sum" = true ->
  subprocess_run os t ["sha1sum"; filename]
  = {| returncode := 0; stdout := (hash ++ String " " rest)%string |} ->
  forall_chars not_space hash = true ->
  getSha1 os filename t
  = (Return hash,
      t ++ [Run ["sha1sum"; filename] 0 (hash ++ String " " rest)%string]).
Proof.
  intros Hsuf Hc Hs Hrun Hh. unfold getSha1, bind.
  rewrite requireCommands_present by (simpl; now rewrite Hc, Hs).
  apply String.eqb_neq in Hsuf. rewrite Hsuf.
  rewrite runCommand_run, Hrun. cbv zeta. cbn [returncode stdout].
  change (0 =? 0) with true. cbv iota. unfold ret. cbn [returncode stdout].
  rewrite split_at_sep
    by (now apply (forall_chars_contains not_space)).
  simpl hd. rewrite <- (append_nil_r hash) at 1.
  now rewrite strip_field.
Qed.

(** [getCrc32]: from a checksum without blanks followed by blanks only
    (the newline of the tool), the checksum comes back. *)
Theorem getCrc32_reads_crc32 (filename crc blanks : string) (t : Trace) :
  which os t "crc32" = true ->
  subprocess_run os t ["crc32"; filename]
  = {| returncode := 0; stdout := (crc ++ blanks)%string |} ->
  forall_chars not_space crc = true ->
  forall_chars isspace blanks = true ->
  getCrc32 os filename t
  = (Return crc, t ++ [Run ["crc32"; filename] 0 (crc ++ blanks)%string]).
Proof.
  intros Hc Hrun Hh Hw. unfold getCrc32, bind.
  rewrite requireCommands_present by (simpl; now rewrite Hc).
  rewrite runCommand_run, Hrun. cbv zeta. cbn [returncode stdout].
  change (0 =? 0) with true. cbv iota. unfold ret. cbn [returncode stdout].
  now rewrite strip_field.
Qed.

(** [getSha1] asks for [chdman] before it looks at the file: the hash of
    a raw image cannot be taken without [chdman] on the PATH, although
    only [sha1sum] would be run for it. *)
Theorem getSha1_needs_chdman (filename : string) (t : Trace) :
  which os t "chdman" = false ->
  let missing := missing_commands os t ["chdman"; "sha1sum"] in
  In "chdman" missing
  /\ getSha1 os filename t = (SysExit 1, t ++ [not_found missing]).
Proof.
  intros Hc missing. unfold getSha1, bind. rewrite requireCommands_run.
  fold missing. unfold missing, missing_commands. simpl. rewrite Hc. simpl.
  split; [now left|reflexivity].
Qed.

End Checksums.

Lemma getSha1_reads_sha1sum_witness :
  getSha1 (Demo.healthy 0) "My Game!.img" []
  = (Return demo_sha1,
      [Run ["sha1sum"; "My Game!.img"] 0
         (demo_sha1 ++ "  My Game!.img" ++ Xml.n)]).
Proof.
  apply (getSha1_reads_sha1sum (Demo.healthy 0) "My Game!.img" demo_sha1
           (" My Game!.img" ++ Xml.n) []); try reflexivity.
  discriminate.
Defined.

Lemma getCrc32_reads_crc32_witness :
  getCrc32 (Demo.healthy 0) "a.img" []
  = (Return "cbf43926", [Run ["crc32"; "a.img"] 0 ("cbf43926" ++ Xml.n)]).
Proof.
  apply (getCrc32_reads_crc32 (Demo.healthy 0) "a.img" "cbf43926" Xml.n []);
    reflexivity.
Defined.

Lemma getSha1_needs_chdman_witness :
  getSha1 (Demo.world (fun cmd => String.eqb cmd "sha1sum") (fun _ => 0)
             "" 0 []) "a.img" []
  = (SysExit 1, [Echo true "Required commands not found: chdman"]).
Proof.
  destruct (getSha1_needs_chdman
              (Demo.world (fun cmd => String.eqb cmd "sha1sum")
                 (fun _ => 0) "" 0 []) "a.img" [] eq_refl)
    as [_ H].
  rewrite H. reflexivity.
Defined.

(** ** The directory of an entry *)

Section EntryDirectory.
Import PyStr PyStrFacts PyPathFacts StepFacts.
Local Open Scope list_scope.

Lemma endswith_append (a b : string) (c : ascii) :
  b <> "" -> endswith (a ++ b) c = endswith b c.
Proof.
  intros Hb. unfold endswith. f_equal.
  induction a as [|x r IH]; simpl; [reflexivity|].
  destruct (r ++ b)%string eqn:E; [|exact IH].
  destruct r; simpl in E; [congruence|discriminate].
Qed.

Lemma rom_dir_plain (sl name : string) :
  sl <> "" -> String.prefix "/" sl = false -> endswith sl "/" = false ->
  String.prefix "/" name = false ->
  rom_dir sl name = ("roms/" ++ sl ++ "/" ++ name)%string.
Proof.
  intros Hne Hp He Hn. unfold rom_dir, PyPath.join at 2. rewrite Hp.
  simpl. unfold PyPath.join. rewrite Hn.
  change (String "r" (String "o" (String "m" (String "s" (String "/" sl)))))
    with ("roms/" ++ sl)%string.
  rewrite (endswith_append "roms/" sl "/" Hne), He. simpl.
  reflexivity.
Qed.

Variable os : OS.

(** With a list name and an entry name that are relative, the list name
    neither empty nor ending in a slash, [getRomPath] answers
    [roms/<sl>/<name>]; it makes that directory when it is not there and
    does nothing else. *)
Theorem getRomPath_under_roms (sl name : string) (t : Trace) :
  sl <> "" -> String.prefix "/" sl = false -> endswith sl "/" = false ->
  String.prefix "/" name = false ->
  let rom_path := ("roms/" ++ sl ++ "/" ++ name)%string in
  getRomPath os sl name t
  = (Return rom_path,
      t ++ if path_exists os t rom_path then [] else [Makedirs rom_path]).
Proof.
  intros Hne Hp He Hn rom_path.
  pose proof (getRomPath_run os sl name t) as R. cbv zeta in R.
  fold (rom_dir sl name) in R.
  rewrite (rom_dir_plain sl name Hne Hp He Hn) in R. exact R.
Qed.

(** Neither name is checked: an entry name that starts with a slash is
    taken by [os.path.join] as the whole path, so the directory that
    [getRomPath] answers, and makes when it is not there, is the entry
    name itself, outside [roms/]. *)
Theorem getRomPath_absolute_name (sl name : string) (t : Trace) :
  String.prefix "/" name = true ->
  getRomPath os sl name t
  = (Return name, t ++ if path_exists os t name then [] else [Makedirs name]).
Proof.
  intros Hn. pose proof (getRomPath_run os sl name t) as R. cbv zeta in R.
  unfold PyPath.join at 1 3 5 in R. rewrite Hn in R. exact R.
Qed.

End EntryDirectory.

Lemma getRomPath_under_roms_witness :
  getRomPath (Demo.healthy 0) "pc_xt" "mygame" []
  = (Return "roms/pc_xt/mygame", [Makedirs "roms/pc_xt/mygame"])
  /\ getRomPath (Demo.healthy 0) "pc_xt" "mygame"
       [Makedirs "roms/pc_xt/mygame"]
     = (Return "roms/pc_xt/mygame", [Makedirs "roms/pc_xt/mygame"]).
Proof.
  split.
  - apply (getRomPath_under_roms (Demo.healthy 0) "pc_xt" "mygame" []);
      (discriminate || reflexivity).
  - apply (getRomPath_under_roms (Demo.healthy 0) "pc_xt" "mygame"
             [Makedirs "roms/pc_xt/mygame"]); (discriminate || reflexivity).
Defined.

Lemma getRomPath_absolute_name_witness :
  getRomPath (Demo.healthy 0) "pc_xt" "/tmp/x" []
  = (Return "/tmp/x", [Makedirs "/tmp/x"]).
Proof.
  apply (getRomPath_absolute_name (Demo.healthy 0) "pc_xt" "/tmp/x" []).
  reflexivity.
Defined.

(** ** What every run of importp looks like *)

Section Invariants.
Import RunFacts StepFacts.
Local Open Scope list_scope.

Variable os : OS.
Variables sl name : string.

Section Keeps.

Variable P : Trace -> Trace -> Prop.
Hypothesis P_nil : forall t, P t [].
Hypothesis P_app :
  forall t d1 d2, P t d1 -> P (t ++ d1) d2 -> P t (d1 ++ d2).
Hypothesis P_other :
  forall t e, (forall q, e <> Makedirs q) -> P t [e].
Hypothesis P_makedirs :
  forall t, path_exists os t (rom_dir sl name) = false ->
            P t [Makedirs (rom_dir sl name)].

Lemma keeps_pure {A} (o : Outcome A) : keeps P (fun t => (o, t)).
Proof. intros t. exists []. simpl. now rewrite app_nil_r. Qed.

Lemma keeps_ask {A} (f : Trace -> A) : keeps P (ask f).
Proof. intros t. exists []. simpl. now rewrite app_nil_r. Qed.

Lemma keeps_emit (e : Event) :
  (forall q, e <> Makedirs q) -> keeps P (emit e).
Proof.
  intros He t. exists [e]. simpl. split; [reflexivity|now apply P_other].
Qed.

Lemma keeps_bind {A B} (m : M A) (k : A -> M B) :
  keeps P m -> (forall a, keeps P (k a)) -> keeps P (bind m k).
Proof.
  intros Hm Hk t. unfold bind. destruct (Hm t) as [d1 [E1 P1]].
  destruct (m t) as [[a|c|e] t1]; simpl in *; subst t1.
  - destruct (Hk a (t ++ d1)) as [d2 [E2 P2]]. exists (d1 ++ d2).
    rewrite E2, app_assoc. split; [reflexivity|now apply P_app].
  - now exists d1.
  - now exists d1.
Qed.

Lemma keeps_requireCommands cmds : keeps P (requireCommands os cmds).
Proof.
  unfold requireCommands. apply keeps_bind; [apply keeps_ask|].
  intros missing. destruct (0 <? _); [|apply (keeps_pure (Return tt))].
  apply keeps_bind; [now apply keeps_emit|intros _].
  apply (keeps_pure (SysExit 1)).
Qed.

Lemma keeps_runCommand cmd : keeps P (runCommand os cmd).
Proof.
  unfold runCommand. apply keeps_bind; [apply keeps_ask|intros p].
  apply keeps_bind; [now apply keeps_emit|intros _].
  destruct (negb _); [|apply (keeps_pure (Return p))].
  apply keeps_bind; [now apply keeps_emit|intros _].
  apply (keeps_pure (SysExit 1)).
Qed.

Lemma keeps_getRomPath : keeps P (getRomPath os sl name).
Proof.
  intros t. rewrite getRomPath_run. fold (rom_dir sl name). simpl.
  destruct (path_exists os t (rom_dir sl name)) eqn:E.
  - exists []. now split.
  - exists [Makedirs (rom_dir sl name)]. split; [reflexivity|].
    now apply P_makedirs.
Qed.

Lemma keeps_getSha1 f : keeps P (getSha1 os f).
Proof.
  unfold getSha1. apply keeps_bind; [apply keeps_requireCommands|intros _].
  destruct (String.eqb _ _);
    (apply keeps_bind; [apply keeps_runCommand|intros p]).
  - apply keeps_pure.
  - apply (keeps_pure (Return _)).
Qed.

Lemma keeps_importpart_fields f count :
  keeps P (importpart_fields os sl name f count).
Proof.
  unfold importpart_fields, importhdd, importcd, importflop, getCrc32,
    getSize.
  destruct (String.eqb _ ".chd"); [|destruct (String.eqb _ ".iso")].
  - apply keeps_bind; [|intros [o s]; apply (keeps_pure (Return _))].
    apply keeps_bind; [apply keeps_requireCommands|intros _].
    apply keeps_bind; [apply keeps_getRomPath|intros rp].
    apply keeps_bind; [apply keeps_runCommand|intros _].
    apply keeps_bind; [apply keeps_getSha1|intros s].
    apply (keeps_pure (Return _)).
  - apply keeps_bind; [|intros [o s]; apply (keeps_pure (Return _))].
    apply keeps_bind; [apply keeps_requireCommands|intros _].
    apply keeps_bind; [apply keeps_getRomPath|intros rp].
    apply keeps_bind; [apply keeps_runCommand|intros _].
    apply keeps_bind; [apply keeps_getSha1|intros s].
    apply (keeps_pure (Return _)).
  - apply keeps_bind; [|intros [[[o s] c] z]; apply (keeps_pure (Return _))].
    apply keeps_bind; [apply keeps_getRomPath|intros rp].
    apply keeps_bind; [now apply keeps_emit|intros _].
    apply keeps_bind.
    { apply keeps_bind; [apply keeps_requireCommands|intros _].
      apply keeps_bind; [apply keeps_runCommand|intros p].
      apply (keeps_pure (Return _)). }
    intros c. apply keeps_bind; [apply keeps_getSha1|intros s].
    apply keeps_bind; [apply keeps_ask|intros z].
    apply (keeps_pure (Return _)).
Qed.

Lemma keeps_import_loop fs :
  forall count, keeps P (import_loop os sl name fs count).
Proof.
  induction fs as [|f r IH]; intros count; simpl.
  - apply (keeps_pure (Return _)).
  - apply keeps_bind.
    { unfold importpart.
      apply keeps_bind; [apply keeps_importpart_fields|intros p].
      apply (keeps_pure (Return _)). }
    intros p. apply keeps_bind; [apply IH|intros ps].
    apply (keeps_pure (Return _)).
Qed.

Lemma keeps_importp fs : keeps P (importp os sl name fs).
Proof.
  unfold importp, importparts. destruct (16 <? _).
  - apply keeps_bind; [now apply keeps_emit|intros _].
    apply (keeps_pure (SysExit 1)).
  - apply keeps_bind; [|intros xml; now apply keeps_emit].
    apply keeps_bind; [apply keeps_import_loop|intros ps].
    apply (keeps_pure (Return _)).
Qed.

End Keeps.

Lemma fresh_dirs_nil p t : fresh_dirs os p t [].
Proof. intros d1 d2 q E. now destruct d1. Qed.

Lemma fresh_dirs_app p t d1 d2 :
  fresh_dirs os p t d1 -> fresh_dirs os p (t ++ d1) d2 ->
  fresh_dirs os p t (d1 ++ d2).
Proof.
  intros H1 H2 e1 e2 q E.
  apply app_eq_app in E as [l [[E1 E2]|[E1 E2]]].
  - destruct l as [|x l'].
    + rewrite app_nil_r in E1. subst e1. simpl in E2.
      destruct (H2 [] e2 q (eq_sym E2)) as [Hq Hp].
      now rewrite app_nil_r in Hp.
    + simpl in E2. injection E2 as <- ->. now apply (H1 e1 l' q).
  - subst e1. destruct (H2 l e2 q E2) as [Hq Hp].
    split; [exact Hq|]. now rewrite app_assoc.
Qed.

Lemma fresh_dirs_other p t e :
  (forall q, e <> Makedirs q) -> fresh_dirs os p t [e].
Proof.
  intros He d1 d2 q E. destruct d1 as [|x d1']; simpl in E.
  - injection E as -> _. now destruct (He q).
  - injection E as _ E. now destruct d1'.
Qed.

Lemma fresh_dirs_makedirs p t :
  path_exists os t p = false -> fresh_dirs os p t [Makedirs p].
Proof.
  intros Hp d1 d2 q E. destruct d1 as [|x d1']; simpl in E.
  - injection E as <- _. now rewrite app_nil_r.
  - injection E as _ E. now destruct d1'.
Qed.

(** [importp] calls [makedirs] for the directory of the entry only, and
    only right after [os.path.exists] said that it was not there.  On a
    file system that remembers what was made, a run therefore makes the
    directory at most once, however many files it imports. *)
Theorem makedirs_only_when_absent (files : list string) (t : Trace) :
  exists d,
    snd (importp os sl name files t) = t ++ d
    /\ fresh_dirs os (rom_dir sl name) t d
    /\ (remembers_dirs os ->
        forall d1 d2 q, d = d1 ++ Makedirs q :: d2 ->
                        forall q', ~ In (Makedirs q') d2).
Proof.
  destruct (keeps_importp (fresh_dirs os (rom_dir sl name))
              (fresh_dirs_nil _) (fresh_dirs_app _)
              (fresh_dirs_other _) (fresh_dirs_makedirs _) files t)
    as [d [E F]].
  exists d. split; [exact E|]. split; [exact F|].
  intros Hrem d1 d2 q Ed q' Hin.
  apply in_split in Hin as [l1 [l2 ->]].
  destruct (F d1 (l1 ++ Makedirs q' :: l2) q Ed) as [-> _].
  assert (Ed' : d = (d1 ++ Makedirs (rom_dir sl name) :: l1)
                    ++ Makedirs q' :: l2).
  { rewrite Ed, <- app_assoc. reflexivity. }
  destruct (F _ _ _ Ed') as [-> Hp].
  rewrite Hrem in Hp; [discriminate|].
  apply in_or_app. right. apply in_or_app. right. now left.
Qed.

(** How a run of [importp] can end.  The exit status is 0 or 1.  A run
    that ends normally has written nothing to stderr, has seen no tool
    fail, and has written to standard output once, as its last act.  A
    run that leaves through [sys.exit] has status 1 and its last act was
    a message on stderr.  A run that dies of an uncaught exception has
    written nothing at all. *)
Theorem importp_outcomes (files : list string) (o : Outcome unit)
  (t : Trace) :
  importp os sl name files [] = (o, t) ->
  (exit_code o = 0 \/ exit_code o = 1)
  /\ (o = Return tt ->
      exists d xml, t = d ++ [Echo false xml] /\ quiet d)
  /\ (forall c, o = SysExit c ->
                c = 1 /\ aborted t
                /\ exists d msg, t = d ++ [Echo true msg])
  /\ (forall e, o = Raise e -> quiet t).
Proof.
  unfold importp. destruct (16 <? PyStr.len name).
  - unfold bind, emit, sys_exit. simpl. intros E. injection E as <- <-.
    split; [now right|]. split; [discriminate|]. split; [|discriminate].
    intros c [= <-]. split; [reflexivity|]. split.
    + apply (refused [] _). constructor.
    + now exists [], (name ++ " must be 16 chars or less")%string.
  - unfold bind.
    destruct (importparts_disciplined os sl name files []) as [d [Ed Od]].
    destruct (importparts os sl name files []) as [[xml|c|e] t1];
      simpl in Ed, Od; subst t1; unfold emit; intros E;
      injection E as <- <-.
    + split; [now left|]. split; [|split; discriminate].
      intros _. now exists d, xml.
    + destruct Od as [-> Ha]. split; [now right|].
      split; [discriminate|]. split; [|discriminate].
      intros c [= <-]. split; [reflexivity|]. split; [exact Ha|].
      destruct Ha as [d0 argv rc out _ _|d0 msg _].
      * exists (d0 ++ [Run argv rc out]), out.
        now rewrite <- app_assoc.
      * now exists d0, msg.
    + split; [now right|]. split; [discriminate|].
      split; [discriminate|]. now intros e' _.
Qed.

End Invariants.

Lemma demo_remembers (size : Z) : remembers_dirs (Demo.healthy size).
Proof.
  intros t q Hin. simpl. unfold Demo.made. apply existsb_exists.
  exists (Makedirs q). split; [exact Hin|apply String.eqb_refl].
Qed.

Lemma makedirs_only_when_absent_witness :
  hd_error (snd (importp (Demo.healthy 0) "pc_xt" "mygame"
                   ["a.img"; "B.CHD"; "c.iso"] []))
  = Some (Makedirs "roms/pc_xt/mygame")
  /\ forall q,
      ~ In (Makedirs q)
          (tl (snd (importp (Demo.healthy 0) "pc_xt" "mygame"
                      ["a.img"; "B.CHD"; "c.iso"] []))).
Proof.
  split; [reflexivity|].
  destruct (makedirs_only_when_absent (Demo.healthy 0) "pc_xt" "mygame"
              ["a.img"; "B.CHD"; "c.iso"] []) as (d & E & _ & H).
  simpl app in E. rewrite <- E in H.
  apply (H (demo_remembers 0) []%list _ "roms/pc_xt/mygame").
  reflexivity.
Defined.

Lemma importp_outcomes_witness :
  exists d xml,
    snd (importp (Demo.healthy 1474560) "pc_xt" "mygame" ["a.img"] [])
    = (d ++ [Echo false xml])%list
    /\ quiet d.
Proof.
  apply (importp_outcomes (Demo.healthy 1474560) "pc_xt" "mygame" ["a.img"]
           (Return tt)
           (snd (importp (Demo.healthy 1474560) "pc_xt" "mygame"
                   ["a.img"] []))); reflexivity.
Defined.

(** ** When an import goes through *)

Section Success.
Import RunFacts StepFacts.
Local Open Scope list_scope.

Variable os : OS.

Hypothesis crc32_present : forall t, which os t "crc32" = true.
Hypothesis chdman_present : forall t, which os t "chdman" = true.
Hypothesis sha1sum_present : forall t, which os t "sha1sum" = true.
Hypothesis tools_succeed :
  forall t argv, returncode (subprocess_run os t argv) = 0.
Hypothesis info_has_sha1 :
  forall t path,
  exists v,
    scan_sha1
      (PyStr.split PyStr.nl
         (stdout (subprocess_run os t ["chdman"; "info"; "-i"; path])))
    = Return v.










End Success.


(** ** An import without files *)

Section NoFiles.
Local Open Scope list_scope.

Variable os : OS.

(** click lets [importp] run without any file.  Under a name of at most
    16 characters it then prints a [software] element without parts and
    ends normally; it looks for no tool, makes no directory and runs
    nothing. *)
Theorem importp_without_files (sl name : string) (t : Trace) :
  (String.length name <= 16)%nat ->
  importp os sl name [] t
  = (Return tt,
      t ++ [Echo false (Xml.software_open name ++ Xml.software_close)]).
Proof.
  intros Hlen. unfold importp, PyStr.len.
  assert (L : (16 <? Z.of_nat (String.length name)) = false)
    by (apply Z.ltb_ge; lia).
  rewrite L. reflexivity.
Qed.

End NoFiles.

Lemma importp_without_files_witness :
  importp Demo.no_checksum_tools "pc_xt" "mygame" [] []
  = (Return tt,
      [Echo false (Xml.software_open "mygame" ++ Xml.software_close)]).
Proof.
  apply (importp_without_files Demo.no_checksum_tools "pc_xt" "mygame" []).
  simpl. lia.
Defined.

(** ** Part names within one import *)

Section DistinctNames.
Import RunFacts.
Local Open Scope list_scope.

Lemma format_int_inj (a b : Z) :
  PyStr.format_int a = PyStr.format_int b -> a = b.
Proof.
  unfold PyStr.format_int. intros H. apply DecimalZ.to_int_inj.
  assert (N : forall z, Z.to_int z <> Decimal.Pos Decimal.Nil
                        /\ Z.to_int z <> Decimal.Neg Decimal.Nil).
  { intros [|p|p]; simpl; split; try discriminate;
      intros E; injection E as E;
      now apply DecimalPos.Unsigned.to_uint_nonnil in E. }
  destruct (N a) as [Na1 Na2], (N b) as [Nb1 Nb2].
  pose proof (NilZero.isi _ Na1 Na2) as Ea.
  pose proof (NilZero.isi _ Nb1 Nb2) as Eb.
  rewrite H in Ea. rewrite Ea in Eb. now injection Eb.
Qed.

Lemma numbered_kind_inj (f g : string) (a b : Z) :
  (part_kind f ++ PyStr.format_int a)%string
  = (part_kind g ++ PyStr.format_int b)%string ->
  a = b.
Proof.
  unfold part_kind. cbv zeta.
  destruct (String.eqb _ ".chd"); [|destruct (String.eqb _ ".iso")];
    (destruct (String.eqb _ ".chd"); [|destruct (String.eqb _ ".iso")]);
    simpl; intros H; try discriminate H;
    injection H as H; now apply format_int_inj.
Qed.

Variable os : OS.

(** The parts of one import have pairwise different names: an import of
    several files numbers every part with its position, and the three
    kinds start with different letters. *)
Theorem part_names_distinct (sl name : string) (files : list string)
  (t t' : Trace) (xml : string) :
  importparts os sl name files t = (Return xml, t') ->
  exists ps,
    xml = software_xml name (map Xml.partxml ps)
    /\ List.length ps = List.length files
    /\ NoDup (map partname ps).
Proof.
  unfold importparts. intros H.
  apply bind_return in H as (parts & t1 & Hloop & H).
  unfold ret in H. injection H as <- <-.
  apply import_loop_return in Hloop as (ps & -> & Hlen & Hnth).
  exists ps. split; [reflexivity|]. split; [exact Hlen|].
  apply NoDup_nth_error. intros i j Hi E.
  rewrite length_map, Hlen in Hi.
  assert (Hj : (j < List.length files)%nat).
  { rewrite <- Hlen, <- (length_map partname). apply nth_error_Some.
    rewrite <- E. apply nth_error_Some. now rewrite length_map, Hlen. }
  destruct (nth_error files i) as [f|] eqn:Ef;
    [|apply nth_error_None in Ef; lia].
  destruct (nth_error files j) as [g|] eqn:Eg;
    [|apply nth_error_None in Eg; lia].
  destruct (Hnth i f Ef) as (p & Hp & Hpn).
  destruct (Hnth j g Eg) as (p' & Hp' & Hpn').
  rewrite !nth_error_map, Hp, Hp' in E. simpl in E. injection E as E.
  rewrite Hpn, Hpn' in E.
  destruct (Z.eqb_spec (Z.of_nat (List.length files)) 1) as [L|L]; [lia|].
  unfold numbered in E.
  replace (0 <? 1 + Z.of_nat i) with true in E
    by (symmetry; apply Z.ltb_lt; lia).
  replace (0 <? 1 + Z.of_nat j) with true in E
    by (symmetry; apply Z.ltb_lt; lia).
  apply numbered_kind_inj in E. lia.
Qed.

End DistinctNames.

Lemma part_names_distinct_witness :
  exists xml t',
    importparts (Demo.healthy 737280) "pc_xt" "mygame"
      ["a.img"; "b.img"; "C.CHD"] [] = (Return xml, t')
    /\ exists ps,
        xml = software_xml "mygame" (map Xml.partxml ps)
        /\ List.length ps = 3%nat
        /\ NoDup (map partname ps).
Proof.
  eexists. eexists. split; [vm_compute; reflexivity|].
  eapply (part_names_distinct (Demo.healthy 737280) "pc_xt" "mygame"
            ["a.img"; "b.img"; "C.CHD"] []).
  vm_compute. reflexivity.
Defined.

(** ** Converted images *)

Section Converted.
Import RunFacts StepFacts.
Local Open Scope list_scope.

Variable os : OS.

Lemma runCommand_return (cmd : list string) (t t' : Trace)
  (p : CompletedProcess) :
  runCommand os cmd t = (Return p, t') ->
  returncode p = 0 /\ t' = t ++ [Run cmd 0 (stdout p)].
Proof.
  rewrite runCommand_run. cbv zeta.
  destruct (Z.eqb_spec (returncode (subprocess_run os t cmd)) 0) as [E|E];
    [|discriminate].
  intros H. injection H as <- <-. rewrite E. now split.
Qed.

Lemma conversion_return (sl name : string) (argv : string -> list string)
  (output_name : string) (t t' : Trace) (r : string * string) :
  bind (requireCommands os ["chdman"])
    (fun _ =>
       bind (getRomPath os sl name)
         (fun rom_path =>
            bind (runCommand os (argv rom_path))
              (fun _ =>
                 bind (getSha1 os
                         (PyPath.join rom_path (output_name ++ ".chd")))
                   (fun sha1 => ret (output_name, sha1))))) t
  = (Return r, t') ->
  fst r = output_name
  /\ exists out, In (Run (argv (rom_dir sl name)) 0 out) t'.
Proof.
  intros H.
  apply bind_return in H as (u & t1 & _ & H).
  apply bind_return in H as (rp & t2 & Hrp & H).
  rewrite getRomPath_run in Hrp. injection Hrp as <- _.
  fold (rom_dir sl name) in H.
  apply bind_return in H as (p & t3 & Hrun & H).
  apply runCommand_return in Hrun as [_ ->].
  apply bind_return in H as (s & t4 & Hs & H).
  apply (extends _ _ _ _ (getSha1_disciplined os _)) in Hs as [d ->].
  unfold ret in H. injection H as <- <-.
  split; [reflexivity|]. exists (stdout p).
  apply in_or_app. left. apply in_or_app. right. now left.
Qed.

(** A CD import that returns has run [chdman createcd] from the input
    file to [<output name>.chd] in the directory of the entry, with
    status 0; its part has the interface [cdrom] and a [disk] element
    named by the output name, without [writeable]. *)
Theorem cd_part (sl name filename : string) (count : Z) (t t' : Trace)
  (p : Part) :
  PyStr.lower (PyPath.suffix filename) = ".iso" ->
  importpart_fields os sl name filename count t = (Return p, t') ->
  partname p = numbered "cdrom" count
  /\ interface p = "cdrom"
  /\ exists sha1 out,
      dataarea p = Xml.cdrom (getOutputName filename) sha1
      /\ In (Run ["chdman"; "createcd"; "-i"; filename; "-o";
                  PyPath.join (rom_dir sl name)
                    (getOutputName filename ++ ".chd")] 0 out) t'.
Proof.
  intros Hsuf H. unfold importpart_fields in H. cbv zeta in H.
  rewrite Hsuf in H. simpl String.eqb in H. cbv iota in H.
  apply bind_return in H as ([o s] & t1 & Hcd & H).
  unfold ret in H. injection H as <- <-.
  unfold importcd in Hcd.
  apply (conversion_return sl name
           (fun rp => ["chdman"; "createcd"; "-i"; filename; "-o";
                       PyPath.join rp (getOutputName filename ++ ".chd")]))
    in Hcd as [Ho [out Hin]].
  simpl in Ho. subst o. split; [reflexivity|]. split; [reflexivity|].
  now exists s, out.
Qed.

(** A hard-disk import that returns has run [chdman copy] with the
    codecs [lzma,zlib,huff,flac] from the input file to
    [<output name>.chd] in the directory of the entry, with status 0;
    its [disk] element is named by the output name and is [writeable]. *)
Theorem hdd_part (sl name filename : string) (count : Z) (t t' : Trace)
  (p : Part) :
  PyStr.lower (PyPath.suffix filename) = ".chd" ->
  importpart_fields os sl name filename count t = (Return p, t') ->
  partname p = numbered "hdd" count
  /\ exists sha1 out,
      dataarea p = Xml.harddriv (getOutputName filename) sha1
      /\ In (Run ["chdman"; "copy"; "-c"; "lzma,zlib,huff,flac"; "-i";
                  filename; "-o";
                  PyPath.join (rom_dir sl name)
                    (getOutputName filename ++ ".chd")] 0 out) t'.
Proof.
  intros Hsuf H. unfold importpart_fields in H. cbv zeta in H.
  rewrite Hsuf in H. simpl String.eqb in H. cbv iota in H.
  apply bind_return in H as ([o s] & t1 & Hhd & H).
  unfold ret in H. injection H as <- <-.
  unfold importhdd in Hhd.
  apply (conversion_return sl name
           (fun rp => ["chdman"; "copy"; "-c"; "lzma,zlib,huff,flac"; "-i";
                       filename; "-o";
                       PyPath.join rp (getOutputName filename ++ ".chd")]))
    in Hhd as [Ho [out Hin]].
  simpl in Ho. subst o. split; [reflexivity|].
  now exists s, out.
Qed.

End Converted.

Lemma cd_part_witness :
  exists p t',
    importpart_fields (Demo.healthy 0) "psx" "mygame" "Disc 1.ISO" 2 []
    = (Return p, t')
    /\ partname p = "cdrom2"
    /\ interface p = "cdrom"
    /\ exists sha1 out,
        dataarea p = Xml.cdrom "disc_1" sha1
        /\ In (Run ["chdman"; "createcd"; "-i"; "Disc 1.ISO"; "-o";
                    "roms/psx/mygame/disc_1.chd"] 0 out) t'.
Proof.
  eexists. eexists. split; [vm_compute; reflexivity|].
  eapply (cd_part (Demo.healthy 0) "psx" "mygame" "Disc 1.ISO" 2 []);
    [reflexivity|vm_compute; reflexivity].
Defined.

Lemma hdd_part_witness :
  exists p t',
    importpart_fields (Demo.healthy 0) "pc98_hdd" "mygame" "Sys Disk.chd" 0
      [] = (Return p, t')
    /\ partname p = "hdd"
    /\ exists sha1 out,
        dataarea p = Xml.harddriv "sys_disk" sha1
        /\ In (Run ["chdman"; "copy"; "-c"; "lzma,zlib,huff,flac"; "-i";
                    "Sys Disk.chd"; "-o"; "roms/pc98_hdd/mygame/sys_disk.chd"]
                 0 out) t'.
Proof.
  eexists. eexists. split; [vm_compute; reflexivity|].
  eapply (hdd_part (Demo.healthy 0) "pc98_hdd" "mygame" "Sys Disk.chd" 0 []);
    [reflexivity|vm_compute; reflexivity].
Defined.
